(** * conai: the outbound request pipeline and the poll orchestrator

    A shallow embedding of [api_handler.py] (configuration validation,
    the retrying session, streamed body assembly, content-type driven
    decoding, the result envelope) and of [poll_status] in [app.py],
    together with the properties of the specification that can be stated
    over them.

    Conventions.
    - A Python [str] is a [string] holding the UTF-8 encoding of the text;
      [bytes] and [bytearray] are [list byte].
    - A Python [dict] with string keys is a [gmap string value].
    - A function that may raise returns a [result]; code with observable
      effects (network calls, closing, logging) runs in the monad [M],
      which threads the trace of effects.
    - Only subclasses of [Exception] are modelled: [KeyboardInterrupt],
      [SystemExit] and [GeneratorExit] are outside the model. *)

From Stdlib Require Import ZArith QArith Floats Lia.
From Stdlib Require Import Strings.Ascii Strings.String Strings.Byte.
From stdpp Require Import gmap strings list.

Set Warnings "-register-all".
Open Scope Z_scope.

(** ** Python values *)

(** The values a configuration, a payload or a decoded body can hold
    ([Dict[str, Any]] in the source's annotations). *)
Inductive value : Type :=
| VNone
| VBool (b : bool)
| VInt (n : Z)
| VFloat (f : float)
| VStr (s : string)
| VList (l : list value)
| VTuple (l : list value)
| VDict (d : gmap string value).

(** [bool(v)]: the truth value Python gives [v] in [if v] and [not v]. *)
Definition truthy (v : value) : bool :=
  match v with
  | VNone => false
  | VBool b => b
  | VInt n => negb (n =? 0)
  | VFloat f => negb (PrimFloat.eqb f 0%float)
  | VStr s => negb (String.eqb s "")
  | VList l | VTuple l => negb (bool_decide (length l = 0%nat))
  | VDict d => negb (bool_decide (size d = 0%nat))
  end.

(** [type(v).__name__], as it appears in [AttributeError] messages. *)
Definition type_name (v : value) : string :=
  match v with
  | VNone => "NoneType"
  | VBool _ => "bool"
  | VInt _ => "int"
  | VFloat _ => "float"
  | VStr _ => "str"
  | VList _ => "list"
  | VTuple _ => "tuple"
  | VDict _ => "dict"
  end.

(** [d.get(k, default)]. *)
Definition dict_get (d : gmap string value) (k : string) (default : value) : value :=
  match d !! k with
  | Some v => v
  | None => default
  end.

(** ** Exceptions *)

(** The exception classes the two modules tell apart.  [ReqTimeout],
    [ReqConnectTimeout] and [ReqConnectionError] are the classes of
    [requests.exceptions]; [ReqConnectTimeout] inherits from both of the
    others.  [OtherException] stands for every other subclass of
    [Exception]. *)
Inductive exn_class : Type :=
| ValueError
| JSONDecodeError
| UnicodeDecodeError
| AttributeError
| TypeError
| KeyError
| BuiltinTimeoutError
| ReqTimeout
| ReqConnectTimeout
| ReqConnectionError
| ReqHTTPError
| ReqOtherRequestException
| PlainException
| OtherException (name : string).

(** A raised exception: its class and [str(e)]. *)
Record exn : Type := Exn { exn_cls : exn_class; exn_str : string }.

(** [isinstance(e, requests.exceptions.Timeout)]. *)
Definition is_Timeout (e : exn) : bool :=
  match exn_cls e with
  | ReqTimeout | ReqConnectTimeout => true
  | _ => false
  end.

(** [isinstance(e, requests.exceptions.ConnectionError)]. *)
Definition is_ConnectionError (e : exn) : bool :=
  match exn_cls e with
  | ReqConnectionError | ReqConnectTimeout => true
  | _ => false
  end.

(** [isinstance(e, requests.RequestException)]. *)
Definition is_RequestException (e : exn) : bool :=
  match exn_cls e with
  | ReqTimeout | ReqConnectTimeout | ReqConnectionError
  | ReqHTTPError | ReqOtherRequestException => true
  | _ => false
  end.

(** [isinstance(e, (json.JSONDecodeError, UnicodeDecodeError))]. *)
Definition is_decode_error (e : exn) : bool :=
  match exn_cls e with
  | JSONDecodeError | UnicodeDecodeError => true
  | _ => false
  end.

(** The outcome of a call that may raise. *)
Inductive result (A : Type) : Type :=
| Ok (a : A)
| Raise (e : exn).
Arguments Ok {A} a.
Arguments Raise {A} e.

(** The class of the exception a call raised, if it raised. *)
Definition exn_cls_of {A} (r : result A) : option exn_class :=
  match r with Ok _ => None | Raise e => Some (exn_cls e) end.

(** ** Library functions the source calls

    [urlparse], [str.upper], [json.loads], [bytes.decode] and [int] belong
    to the Python runtime, not to this repository.  The embedding takes
    them as an interface; every general theorem below holds for any
    implementation of it. *)
Class PyRuntime : Type := {
  (** [urllib.parse.urlparse(v)]: the [scheme] and [netloc] of the
      result, or the exception it raises. *)
  urlparse : value -> result (string * string);
  (** [s.upper()]. *)
  str_upper : string -> string;
  (** [json.loads(b)] for a [bytearray] [b]. *)
  json_loads : list byte -> result value;
  (** [b.decode('utf-8')]. *)
  decode_utf8 : list byte -> result string;
  (** [int(s)] for a [str] [s]. *)
  int_of_str : string -> result Z
}.

(** ** Built-in renderings modelled concretely *)

Definition hexdigit (n : N) : ascii :=
  ascii_of_N (if (n <? 10)%N then 48 + n else 87 + n).

(** One byte of [repr(bytearray)]: the quote and the backslash are
    escaped, tab, newline and carriage return have their letters, other
    bytes outside the printable ASCII range are written [\xhh]. *)
Definition bytearray_repr_byte (b : byte) : string :=
  let n := Byte.to_N b in
  let bs := ascii_of_N 92 in
  if (n =? 39)%N || (n =? 92)%N then String bs (String (ascii_of_N n) "")
  else if (n =? 9)%N then String bs "t"
  else if (n =? 10)%N then String bs "n"
  else if (n =? 13)%N then String bs "r"
  else if (n <? 32)%N || (127 <=? n)%N then
    String bs (String "x" (String (hexdigit (n / 16)) (String (hexdigit (n mod 16)) "")))
  else String (ascii_of_N n) "".

(** The quote [repr(bytearray)] picks: a double quote when the buffer
    holds an apostrophe before any double quote and holds no double quote
    at all; an apostrophe otherwise. *)
Fixpoint bytearray_repr_quote (bs : list byte) (q : ascii) : ascii :=
  match bs with
  | [] => q
  | b :: bs' =>
      if (Byte.to_N b =? 34)%N then ascii_of_N 39
      else if (Byte.to_N b =? 39)%N then bytearray_repr_quote bs' (ascii_of_N 34)
      else bytearray_repr_quote bs' q
  end.

(** [str(b)] for a [bytearray] [b]: the text [bytearray(b'...')]. *)
Definition bytearray_str (bs : list byte) : string :=
  let q := String (bytearray_repr_quote bs (ascii_of_N 39)) "" in
  "bytearray(b" +:+ q +:+ String.concat "" (map bytearray_repr_byte bs) +:+ q +:+ ")".

(** [needle in haystack] on [str]. *)
Fixpoint str_contains (needle haystack : string) : bool :=
  String.prefix needle haystack ||
  match haystack with
  | EmptyString => false
  | String _ rest => str_contains needle rest
  end.

(** [s.lower()] on the ASCII letters (header names are ASCII). *)
Definition ascii_lower (c : ascii) : ascii :=
  let n := N_of_ascii c in
  if (65 <=? n)%N && (n <=? 90)%N then ascii_of_N (n + 32) else c.

Fixpoint str_lower (s : string) : string :=
  match s with
  | EmptyString => EmptyString
  | String c rest => String (ascii_lower c) (str_lower rest)
  end.

(** ** api_handler.py *)

Module api_handler.

(** *** Effects *)

(** What the handler does to the outside world, in order. *)
Inductive log_level : Type := INFO | WARNING | ERROR.

Inductive event : Type :=
| EvRequest (method : value) (kwargs : gmap string value)
| EvResponseClose
| EvSessionClose
| EvLog (level : log_level) (msg : string)
| EvLogProgress (accumulated declared : Z).

(** A computation that appends to the trace of effects and returns or
    raises. *)
Definition M (A : Type) : Type := list event -> result A * list event.

Definition ret {A} (a : A) : M A := fun tr => (Ok a, tr).
Definition raise {A} (e : exn) : M A := fun tr => (Raise e, tr).
Definition emit (ev : event) : M unit := fun tr => (Ok tt, tr ++ [ev]).
Definition lift {A} (r : result A) : M A := fun tr => (r, tr).

#[export] Instance M_ret : MRet M := fun A a => ret a.

#[export] Instance M_bind : MBind M := fun A B k m tr =>
  match m tr with
  | (Ok a, tr') => k a tr'
  | (Raise e, tr') => (Raise e, tr')
  end.

(** [try: m except Exception as e: handler e]. *)
Definition try_except {A} (m : M A) (handler : exn -> M A) : M A :=
  fun tr =>
    match m tr with
    | (Ok a, tr') => (Ok a, tr')
    | (Raise e, tr') => handler e tr'
    end.

(** [try: m finally: cleanup]: the cleanup runs on every exit path; an
    exception of the cleanup replaces the outcome of [m]. *)
Definition try_finally {A} (m : M A) (cleanup : M unit) : M A :=
  fun tr =>
    match m tr with
    | (r, tr') =>
        match cleanup tr' with
        | (Ok _, tr'') => (r, tr'')
        | (Raise e, tr'') => (Raise e, tr'')
        end
    end.

(** Unfolds the operations of [M]. *)
Ltac run :=
  unfold mbind, M_bind, mret, M_ret, ret, lift, emit, raise, try_except, try_finally;
  simpl.

(** [d[k]]: raises [KeyError] when the key is missing. *)
Definition getitem (d : gmap string value) (k : string) : result value :=
  match d !! k with
  | Some v => Ok v
  | None => Raise (Exn KeyError ("'" +:+ k +:+ "'"))
  end.

(** *** The session and its retry policy *)

(** The arguments [_create_session] gives [Retry]. *)
Record Retry : Type := {
  total : Z;
  backoff_factor : Q;
  status_forcelist : list Z;
  allowed_methods : list string
}.

(** A [requests.Session]: the adapters mounted on URL prefixes, each with
    its retry policy. *)
Record Session : Type := { adapters : list (string * Retry) }.

(** The [retries] of [_create_session]. *)
Definition retries : Retry :=
  {| total := 3;
     backoff_factor := 1 # 2;
     status_forcelist := [500; 502; 503; 504];
     allowed_methods := ["GET"; "POST"; "PUT"; "DELETE"; "PATCH"]%string |}.

Definition _create_session : Session :=
  let adapter := retries in
  {| adapters := [("http://"%string, adapter); ("https://"%string, adapter)] |}.

(** *** _validate_config *)

Definition supported_methods : list string :=
  ["GET"; "POST"; "PUT"; "PATCH"; "DELETE"]%string.

(** The [try] block of [_validate_config]: parse the endpoint and check
    its scheme and host. *)
Definition check_endpoint `{PyRuntime} (endpoint : value) : result unit :=
  match urlparse endpoint with
  | Raise e => Raise e
  | Ok (scheme, netloc) =>
      if negb (truthy (VStr scheme) && truthy (VStr netloc)) then
        Raise (Exn ValueError "Invalid URL format")
      else if negb (bool_decide (scheme ∈ ["http"; "https"]%string)) then
        Raise (Exn ValueError "URL must use http or https protocol")
      else Ok tt
  end.

(** [config.get('method', 'GET').upper()]. *)
Definition upper_method `{PyRuntime} (config : gmap string value) : result string :=
  match dict_get config "method" (VStr "GET") with
  | VStr s => Ok (str_upper s)
  | v => Raise (Exn AttributeError
                  ("'" +:+ type_name v +:+ "' object has no attribute 'upper'"))
  end.

Definition _validate_config `{PyRuntime} (config : gmap string value)
  : result (gmap string value) :=
  if negb (truthy (dict_get config "endpoint" VNone)) then
    Raise (Exn ValueError "API endpoint is required")
  else
    match check_endpoint (dict_get config "endpoint" VNone) with
    | Raise e => Raise (Exn ValueError ("Invalid endpoint URL: " +:+ exn_str e))
    | Ok _ =>
        match upper_method config with
        | Raise e => Raise e
        | Ok method =>
            if negb (bool_decide (method ∈ supported_methods)) then
              Raise (Exn ValueError ("Unsupported HTTP method: " +:+ method))
            else
              match dict_get config "headers" (VDict ∅) with
              | VDict headers =>
                  Ok ({[ "endpoint" := dict_get config "endpoint" VNone;
                         "method" := VStr method;
                         "headers" := VDict headers;
                         "payload" := dict_get config "payload" VNone ]}
                      : gmap string value)
              | _ => Raise (Exn ValueError "Headers must be a dictionary")
              end
        end
    end.

(** *** The response handle *)

(** How the body iterator of a response ends: normally, with urllib3's
    [IncompleteRead] (carrying the bytes read so far), or with any other
    exception. *)
Inductive iter_end : Type :=
| IterDone
| IterIncompleteRead (e_str : string) (partial : list byte)
| IterRaise (e : exn).

(** A live [requests.Response].  [headers] is the case-insensitive
    dictionary of the library: stored under the lower-cased name, with the
    name as received.  [raw_chunks] and [raw_end] are what
    [iter_content(chunk_size=8192)] produces. *)
Record Response : Type := {
  status_code : Z;
  reason : string;
  headers : gmap string (string * string);
  url : string;
  raw_chunks : list (list byte);
  raw_end : iter_end
}.

(** [response.headers.get(name)]. *)
Definition headers_get (h : gmap string (string * string)) (name : string) : option string :=
  snd <$> h !! str_lower name.

(** [dict(response.headers)]. *)
Definition headers_dict (h : gmap string (string * string)) : gmap string value :=
  list_to_map ((fun kv : string * (string * string) => (kv.2.1, VStr kv.2.2)) <$> map_to_list h).

(** [response.ok]: false exactly for the statuses [raise_for_status]
    rejects, 400 to 599. *)
Definition ok (response : Response) : bool :=
  negb ((400 <=? status_code response) && (status_code response <? 600)).

(** *** _stream_response *)

(** A generator, run to its end: what it yields and the effects it has in
    between, in order, and the exception it ends with, if any. *)
Inductive gen_item : Type :=
| Yield (chunk : list byte)
| Effect (ev : event).

Definition generator : Type := list gen_item * option exn.

Definition nonempty (chunk : list byte) : bool :=
  match chunk with [] => false | _ => true end.

Definition _stream_response (response : Response) : generator :=
  let yielded := Yield <$> List.filter nonempty (raw_chunks response) in
  match raw_end response with
  | IterDone => (yielded, None)
  | IterIncompleteRead e_str partial =>
      (yielded
         ++ [Effect (EvLog WARNING ("Incomplete read while streaming: " +:+ e_str))]
         ++ (if nonempty partial then [Yield partial] else []),
       None)
  | IterRaise e =>
      (yielded ++ [Effect (EvLog ERROR ("Error streaming response: " +:+ exn_str e))],
       Some e)
  end.

(** The bytes a generator yields, in order. *)
Definition yielded (items : list gen_item) : list byte :=
  concat (omap (fun item => match item with
                            | Yield chunk => Some chunk
                            | Effect _ => None
                            end) items).

(** The bytes a stream delivers in all: its chunks and, after an
    [IncompleteRead], the partial bytes. *)
Definition assembled (response : Response) : list byte :=
  concat (raw_chunks response)
    ++ match raw_end response with
       | IterIncompleteRead _ partial => partial
       | _ => []
       end.

(** Whether the stream reaches its end, truncated or not, without
    another exception. *)
Definition completes (response : Response) : bool :=
  match raw_end response with
  | IterRaise _ => false
  | _ => true
  end.

(** *** _handle_response *)

(** The failure shape of the envelope. *)
Definition failure_envelope (code : Z) (error : string) (method url : value)
  : gmap string value :=
  {[ "success" := VBool false;
     "status_code" := VInt code;
     "error" := VStr error;
     "method" := method;
     "url" := url ]}.

Record APIHandler : Type := { config : gmap string value; session : Session }.

Definition len (bs : list byte) : Z := Z.of_nat (length bs).

(** The [for chunk in self._stream_response(response)] loop. *)
Fixpoint accumulate (content_length : Z) (items : list gen_item)
    (accumulated_data : list byte) : M (list byte) :=
  match items with
  | [] => mret accumulated_data
  | Effect ev :: rest =>
      emit ev;; accumulate content_length rest accumulated_data
  | Yield chunk :: rest =>
      let accumulated_data := accumulated_data ++ chunk in
      (if 1000000 <? content_length
       then emit (EvLogProgress (len accumulated_data) content_length)
       else mret tt);;
      accumulate content_length rest accumulated_data
  end.

Definition stream_all (content_length : Z) (g : generator) : M (list byte) :=
  accumulated_data ← accumulate content_length g.1 [];
  match g.2 with
  | None => mret accumulated_data
  | Some e => raise e
  end.

(** The inner [try] of [_handle_response]: decode by content type, with
    one fallback for both decoders. *)
Definition decode `{PyRuntime} (content_type : string) (accumulated_data : list byte)
  : M value :=
  try_except
    (lift (if str_contains "application/json" content_type
           then json_loads accumulated_data
           else match decode_utf8 accumulated_data with
                | Ok s => Ok (VStr s)
                | Raise e => Raise e
                end))
    (fun e =>
       if is_decode_error e then
         emit (EvLog WARNING ("Error decoding response: " +:+ exn_str e));;
         mret (VStr (bytearray_str accumulated_data))
       else raise e).

(** [response.headers.get('content-type', '')]. *)
Definition content_type_of (response : Response) : string :=
  default ""%string (headers_get (headers response) "content-type").

(** [int(response.headers.get('content-length', 0))]. *)
Definition content_length_of `{PyRuntime} (response : Response) : result Z :=
  match headers_get (headers response) "content-length" with
  | Some s => int_of_str s
  | None => Ok 0
  end.

Definition _handle_response `{PyRuntime} (self : APIHandler) (response : Response)
  : M (gmap string value) :=
  try_except
    (let content_type := content_type_of response in
     content_length ← lift (content_length_of response);
     accumulated_data ← stream_all content_length (_stream_response response);
     data ← decode content_type accumulated_data;
     method ← lift (getitem (config self) "method");
     mret ({[ "success" := VBool (ok response);
              "status_code" := VInt (status_code response);
              "status_text" := VStr (reason response);
              "headers" := VDict (headers_dict (headers response));
              "data" := data;
              "url" := VStr (url response);
              "method" := method;
              "size" := VInt (len accumulated_data) ]} : gmap string value))
    (fun e =>
       emit (EvLog ERROR ("Error handling response: " +:+ exn_str e));;
       method ← lift (getitem (config self) "method");
       mret (failure_envelope (status_code response)
               ("Error processing response: " +:+ exn_str e) method (VStr (url response)))).

(** *** execute *)

(** [session.request(method, **kwargs)], retries included: the response
    handle obtained, or the exception raised. *)
Definition transport : Type := value -> gmap string value -> result Response.

(** [headers.copy()]. *)
Definition copy (v : value) : result value :=
  match v with
  | VDict _ | VList _ => Ok v
  | _ => Raise (Exn AttributeError
                  ("'" +:+ type_name v +:+ "' object has no attribute 'copy'"))
  end.

(** [headers[k] = v]. *)
Definition setitem (container : value) (k : string) (v : value) : result value :=
  match container with
  | VDict d => Ok (VDict (<[k := v]> d))
  | VList _ => Raise (Exn TypeError "list indices must be integers or slices, not str")
  | _ => Raise (Exn TypeError
                  ("'" +:+ type_name container +:+ "' object does not support item assignment"))
  end.

(** [method == s] and [method in [...]] for a string literal. *)
Definition str_eq (v : value) (s : string) : bool :=
  match v with
  | VStr s' => String.eqb s' s
  | _ => false
  end.

(** The first half of the [try] of [execute]: the method and the keyword
    arguments of the request. *)
Definition request_params (self : APIHandler) (auth_token : option string)
  : result (value * gmap string value) :=
  match getitem (config self) "headers" with
  | Raise e => Raise e
  | Ok h =>
      match copy h with
      | Raise e => Raise e
      | Ok headers =>
          match (match auth_token with
                 | Some tok =>
                     if truthy (VStr tok) then
                       setitem headers "Authorization"
                         (VStr (if String.prefix "Bearer " tok then tok
                                else "Bearer " +:+ tok))
                     else Ok headers
                 | None => Ok headers
                 end) with
          | Raise e => Raise e
          | Ok headers =>
              match getitem (config self) "endpoint" with
              | Raise e => Raise e
              | Ok endpoint =>
                  let params : gmap string value :=
                    {[ "url" := endpoint;
                       "headers" := headers;
                       "timeout" := VTuple [VInt 5; VInt 60];
                       "stream" := VBool true ]} in
                  match getitem (config self) "method" with
                  | Raise e => Raise e
                  | Ok method =>
                      let payload := dict_get (config self) "payload" VNone in
                      if str_eq method "GET" && truthy payload then
                        Ok (method, <["params" := payload]> params)
                      else if existsb (str_eq method) ["POST"; "PUT"; "PATCH"; "DELETE"]%string
                              && truthy payload then
                        Ok (method, <["json" := payload]> params)
                      else Ok (method, params)
                  end
              end
          end
      end
  end.

(** The failure envelope the handlers of [execute] build. *)
Definition failure (self : APIHandler) (code : Z) (error : string)
  : M (gmap string value) :=
  method ← lift (getitem (config self) "method");
  endpoint ← lift (getitem (config self) "endpoint");
  mret (failure_envelope code error method endpoint).

Definition execute `{PyRuntime} (net : transport) (self : APIHandler)
    (auth_token : option string) : M (gmap string value) :=
  try_finally
    (try_except
       ('(method, kwargs) ← lift (request_params self auth_token);
        emit (EvRequest method kwargs);;
        response ← lift (net method kwargs);
        try_finally (_handle_response self response) (emit EvResponseClose))
       (fun e =>
          if is_Timeout e then failure self 408 "Request timed out"
          else if is_ConnectionError e then
            failure self 503 ("Connection error: " +:+ exn_str e)
          else failure self 500 (exn_str e)))
    (emit EvSessionClose).

(** *** The constructor and the entry point *)

(** [APIHandler(config)]. *)
Definition __init__ `{PyRuntime} (raw : gmap string value) : result APIHandler :=
  match _validate_config raw with
  | Raise e => Raise e
  | Ok validated => Ok {| config := validated; session := _create_session |}
  end.

Definition handle_api_request `{PyRuntime} (net : transport)
    (raw : gmap string value) (auth_token : option string) : M (gmap string value) :=
  try_except
    (handler ← lift (__init__ raw);
     execute net handler auth_token)
    (fun e =>
       mret (failure_envelope 500 (exn_str e)
               (dict_get raw "method" (VStr "GET")) (dict_get raw "endpoint" (VStr "")))).

(** What [__init__] establishes about the handler it builds, and
    [execute] relies on: the four fields are there, the method is a
    supported one and the headers are a dictionary. *)
Definition well_formed (self : APIHandler) : Prop :=
  exists endpoint method hdrs payload,
    config self !! "endpoint" = Some endpoint
    /\ config self !! "method" = Some (VStr method)
    /\ config self !! "headers" = Some (VDict hdrs)
    /\ config self !! "payload" = Some payload
    /\ method ∈ supported_methods.

End api_handler.

(** ** A reference runtime

    An executable implementation of [PyRuntime] for the ASCII fragment of
    the library functions, used to run the embedding on concrete inputs.
    It follows CPython on its fragment: URLs without white space or
    control characters; JSON texts in UTF-8 whose numbers are integers
    and whose [\u] escapes are not lone surrogates; decimal [int]
    literals.  Outside the fragment it raises where CPython may succeed;
    no general theorem depends on it. *)

Module reference.

Definition code (c : ascii) : N := N_of_ascii c.

Definition dquote : ascii := ascii_of_N 34.

(** [s] between double quotes. *)
Definition quoted (s : string) : string := String dquote (s +:+ String dquote "").

Definition is_alpha (c : ascii) : bool :=
  ((65 <=? code c) && (code c <=? 90) || (97 <=? code c) && (code c <=? 122))%N.

Definition is_digit (c : ascii) : bool := ((48 <=? code c) && (code c <=? 57))%N.

Definition ascii_upper (c : ascii) : ascii :=
  if ((97 <=? code c) && (code c <=? 122))%N then ascii_of_N (code c - 32) else c.

Fixpoint upper (s : string) : string :=
  match s with
  | EmptyString => EmptyString
  | String c rest => String (ascii_upper c) (upper rest)
  end.

(** *** urlparse *)

Definition is_scheme_char (c : ascii) : bool :=
  is_alpha c || is_digit c || (code c =? 43)%N || (code c =? 45)%N || (code c =? 46)%N.

(** [s] cut at the first character satisfying [stop]: what stands before
    it, and the rest from it on ([None] when there is none). *)
Fixpoint cut (stop : ascii -> bool) (s : string) : string * option string :=
  match s with
  | EmptyString => (EmptyString, None)
  | String c rest =>
      if stop c then (EmptyString, Some s)
      else let '(before, after) := cut stop rest in (String c before, after)
  end.

Fixpoint all_chars (p : ascii -> bool) (s : string) : bool :=
  match s with
  | EmptyString => true
  | String c rest => p c && all_chars p rest
  end.

Fixpoint has_char (n : N) (s : string) : bool :=
  match s with
  | EmptyString => false
  | String c rest => (code c =? n)%N || has_char n rest
  end.

(** The scheme of [urlsplit]: the text before the first colon when it
    starts with a letter and holds scheme characters only, lower-cased;
    and what is left of the URL. *)
Definition split_scheme (u : string) : string * string :=
  match cut (fun c => (code c =? 58)%N) u with
  | (String c0 before, Some (String _ after)) =>
      if is_alpha c0 && all_chars is_scheme_char before
      then (str_lower (String c0 before), after)
      else (EmptyString, u)
  | _ => (EmptyString, u)
  end.

Definition split_netloc (rest : string) : string :=
  match rest with
  | String a (String b after) =>
      if ((code a =? 47) && (code b =? 47))%N
      then (cut (fun c => (code c =? 47) || (code c =? 63) || (code c =? 35))%N after).1
      else EmptyString
  | _ => EmptyString
  end.

Definition ref_urlparse (v : value) : result (string * string) :=
  match v with
  | VStr u =>
      let '(scheme, rest) := split_scheme u in
      let netloc := split_netloc rest in
      if xorb (has_char 91 netloc) (has_char 93 netloc)
      then Raise (Exn ValueError "Invalid IPv6 URL")
      else Ok (scheme, netloc)
  | _ =>
      if truthy v
      then Raise (Exn AttributeError
                    ("'" +:+ type_name v +:+ "' object has no attribute 'decode'"))
      else Ok (EmptyString, EmptyString)
  end.

(** *** bytes.decode('utf-8') *)

Definition is_cont (b : byte) : bool :=
  ((128 <=? Byte.to_N b) && (Byte.to_N b <=? 191))%N.

Definition in_range (lo hi : N) (b : byte) : bool :=
  ((lo <=? Byte.to_N b) && (Byte.to_N b <=? hi))%N.

(** Well-formed UTF-8 byte sequences (Unicode, table 3-7). *)
Fixpoint utf8_valid (fuel : nat) (bs : list byte) : bool :=
  match fuel with
  | O => match bs with [] => true | _ => false end
  | S fuel =>
      match bs with
      | [] => true
      | b0 :: rest =>
          let n := Byte.to_N b0 in
          if (n <? 128)%N then utf8_valid fuel rest
          else if in_range 194 223 b0 then
            match rest with
            | b1 :: rest => is_cont b1 && utf8_valid fuel rest
            | _ => false
            end
          else if in_range 224 239 b0 then
            match rest with
            | b1 :: b2 :: rest =>
                (if (n =? 224)%N then in_range 160 191 b1
                 else if (n =? 237)%N then in_range 128 159 b1
                 else is_cont b1)
                && is_cont b2 && utf8_valid fuel rest
            | _ => false
            end
          else if in_range 240 244 b0 then
            match rest with
            | b1 :: b2 :: b3 :: rest =>
                (if (n =? 240)%N then in_range 144 191 b1
                 else if (n =? 244)%N then in_range 128 143 b1
                 else is_cont b1)
                && is_cont b2 && is_cont b3 && utf8_valid fuel rest
            | _ => false
            end
          else false
      end
  end.

Definition ref_decode_utf8 (bs : list byte) : result string :=
  if utf8_valid (length bs) bs then Ok (string_of_list_byte bs)
  else Raise (Exn UnicodeDecodeError "'utf-8' codec can't decode bytes")%string.

(** *** int *)

Definition is_space (c : ascii) : bool :=
  ((9 <=? code c) && (code c <=? 13) || (code c =? 32))%N.

Fixpoint lstrip (s : string) : string :=
  match s with
  | String c rest => if is_space c then lstrip rest else s
  | EmptyString => EmptyString
  end.

Definition strip (s : string) : string :=
  String.rev (lstrip (String.rev (lstrip s))).

(** Decimal digits, single underscores allowed between them. *)
Fixpoint digits (s : string) (acc : Z) (after_digit : bool) : option Z :=
  match s with
  | EmptyString => if after_digit then Some acc else None
  | String c rest =>
      if is_digit c then digits rest (10 * acc + Z.of_N (code c - 48)) true
      else if (code c =? 95)%N && after_digit then digits rest acc false
      else None
  end.

Definition ref_int_of_str (s : string) : result Z :=
  let bad := Raise (Exn ValueError ("invalid literal for int() with base 10: '" +:+ s +:+ "'")) in
  match strip s with
  | String c rest =>
      if (code c =? 45)%N then
        match digits rest 0 false with Some n => Ok (- n) | None => bad end
      else if (code c =? 43)%N then
        match digits rest 0 false with Some n => Ok n | None => bad end
      else match digits (String c rest) 0 false with Some n => Ok n | None => bad end
  | EmptyString => bad
  end.

(** *** json.loads *)

Definition is_json_ws (c : ascii) : bool :=
  ((code c =? 32) || (code c =? 9) || (code c =? 10) || (code c =? 13))%N.

Fixpoint skip_ws (s : string) : string :=
  match s with
  | String c rest => if is_json_ws c then skip_ws rest else s
  | EmptyString => EmptyString
  end.

Definition hexval (c : ascii) : option N :=
  if is_digit c then Some (code c - 48)%N
  else if ((97 <=? code c) && (code c <=? 102))%N then Some (code c - 87)%N
  else if ((65 <=? code c) && (code c <=? 70))%N then Some (code c - 55)%N
  else None.

Definition hex4 (a b c d : ascii) : option N :=
  match hexval a, hexval b, hexval c, hexval d with
  | Some a, Some b, Some c, Some d => Some (((a * 16 + b) * 16 + c) * 16 + d)%N
  | _, _, _, _ => None
  end.

(** The UTF-8 encoding of a code point that is not a surrogate. *)
Definition utf8_encode (cp : N) : string :=
  let ch (n : N) := ascii_of_N n in
  (if cp <? 128 then String (ch cp) ""
   else if cp <? 2048 then
     String (ch (192 + cp / 64)) (String (ch (128 + cp mod 64)) "")
   else if cp <? 65536 then
     String (ch (224 + cp / 4096))
       (String (ch (128 + (cp / 64) mod 64)) (String (ch (128 + cp mod 64)) ""))
   else
     String (ch (240 + cp / 262144))
       (String (ch (128 + (cp / 4096) mod 64))
          (String (ch (128 + (cp / 64) mod 64)) (String (ch (128 + cp mod 64)) ""))))%N.

Definition simple_escape (c : ascii) : option ascii :=
  let n := code c in
  (if (n =? 34) || (n =? 92) || (n =? 47) then Some c
   else if n =? 98 then Some (ascii_of_N 8)
   else if n =? 102 then Some (ascii_of_N 12)
   else if n =? 110 then Some (ascii_of_N 10)
   else if n =? 114 then Some (ascii_of_N 13)
   else if n =? 116 then Some (ascii_of_N 9)
   else None)%N.

Definition prepend (prefix : string) (r : option (string * string))
  : option (string * string) :=
  match r with
  | Some (body, rest) => Some (prefix +:+ body, rest)
  | None => None
  end.

(** A string literal from just after its opening quote: its text and
    what follows the closing quote. *)
Fixpoint parse_string (s : string) : option (string * string) :=
  match s with
  | EmptyString => None
  | String c rest =>
      if (code c =? 34)%N then Some (EmptyString, rest)
      else if (code c =? 92)%N then
        match rest with
        | String e rest1 =>
            if (code e =? 117)%N then
              match rest1 with
              | String h1 (String h2 (String h3 (String h4 rest2))) =>
                  match hex4 h1 h2 h3 h4 with
                  | Some cp =>
                      if ((55296 <=? cp) && (cp <=? 56319))%N then
                        match rest2 with
                        | String b (String u (String l1 (String l2 (String l3 (String l4 rest3))))) =>
                            match hex4 l1 l2 l3 l4 with
                            | Some lo =>
                                if ((code b =? 92) && (code u =? 117)
                                    && (56320 <=? lo) && (lo <=? 57343))%N
                                then prepend
                                       (utf8_encode (65536 + (cp - 55296) * 1024 + (lo - 56320))%N)
                                       (parse_string rest3)
                                else None
                            | None => None
                            end
                        | _ => None
                        end
                      else if ((56320 <=? cp) && (cp <=? 57343))%N then None
                      else prepend (utf8_encode cp) (parse_string rest2)
                  | None => None
                  end
              | _ => None
              end
            else
              match simple_escape e with
              | Some ch => prepend (String ch "") (parse_string rest1)
              | None => None
              end
        | EmptyString => None
        end
      else if (code c <? 32)%N then None
      else prepend (String c "") (parse_string rest)
  end.

(** The digits at the head of [s] and what follows them. *)
Fixpoint take_digits (s : string) : string * string :=
  match s with
  | String c rest =>
      if is_digit c then let '(ds, after) := take_digits rest in (String c ds, after)
      else (EmptyString, s)
  | EmptyString => (EmptyString, EmptyString)
  end.

Fixpoint decimal (ds : string) (acc : Z) : Z :=
  match ds with
  | String c rest => decimal rest (10 * acc + Z.of_N (code c - 48))
  | EmptyString => acc
  end.

(** An integer numeral [0] or [[1-9][0-9]*]; a fraction or an exponent
    after it is outside the fragment. *)
Definition parse_nat (s : string) : option (Z * string) :=
  match s with
  | String c rest =>
      if negb (is_digit c) then None
      else
        let '(ds, after) :=
          if (code c =? 48)%N then (String c "", rest) else take_digits s in
        match after with
        | String d _ =>
            if ((code d =? 46) || (code d =? 101) || (code d =? 69))%N then None
            else Some (decimal ds 0, after)
        | EmptyString => Some (decimal ds 0, after)
        end
  | EmptyString => None
  end.

(** [s] without the prefix [p], when it starts with it. *)
Fixpoint strip_prefix (p s : string) : option string :=
  match p, s with
  | EmptyString, _ => Some s
  | String a p', String b s' => if Ascii.eqb a b then strip_prefix p' s' else None
  | String _ _, EmptyString => None
  end.

Definition parse_scalar (s : string) : option (value * string) :=
  match strip_prefix "null" s, strip_prefix "true" s, strip_prefix "false" s with
  | Some rest, _, _ => Some (VNone, rest)
  | _, Some rest, _ => Some (VBool true, rest)
  | _, _, Some rest => Some (VBool false, rest)
  | None, None, None =>
      match strip_prefix "NaN" s, strip_prefix "Infinity" s, strip_prefix "-Infinity" s with
      | Some rest, _, _ => Some (VFloat PrimFloat.nan, rest)
      | _, Some rest, _ => Some (VFloat PrimFloat.infinity, rest)
      | _, _, Some rest => Some (VFloat PrimFloat.neg_infinity, rest)
      | None, None, None =>
          match s with
          | String c rest =>
              if (code c =? 45)%N then
                match parse_nat rest with
                | Some (n, after) => Some (VInt (- n), after)
                | None => None
                end
              else
                match parse_nat s with
                | Some (n, after) => Some (VInt n, after)
                | None => None
                end
          | EmptyString => None
          end
      end
  end.

(** A JSON value at the head of [s] and what follows it; [s] starts at
    the value, white space skipped. *)
Fixpoint parse_value (fuel : nat) (s : string) : option (value * string) :=
  match fuel with
  | O => None
  | S fuel =>
      match s with
      | EmptyString => None
      | String c rest =>
          if (code c =? 34)%N then
            match parse_string rest with
            | Some (text, after) => Some (VStr text, after)
            | None => None
            end
          else if (code c =? 91)%N then
            match skip_ws rest with
            | String c' rest' =>
                if (code c' =? 93)%N then Some (VList [], rest')
                else parse_elements fuel (String c' rest') []
            | EmptyString => None
            end
          else if (code c =? 123)%N then
            match skip_ws rest with
            | String c' rest' =>
                if (code c' =? 125)%N then Some (VDict ∅, rest')
                else parse_members fuel (String c' rest') ∅
            | EmptyString => None
            end
          else parse_scalar s
      end
  end
with parse_elements (fuel : nat) (s : string) (acc : list value)
  : option (value * string) :=
  match fuel with
  | O => None
  | S fuel =>
      match parse_value fuel s with
      | Some (v, after) =>
          match skip_ws after with
          | String c rest =>
              if (code c =? 44)%N then parse_elements fuel (skip_ws rest) (acc ++ [v])
              else if (code c =? 93)%N then Some (VList (acc ++ [v]), rest)
              else None
          | EmptyString => None
          end
      | None => None
      end
  end
with parse_members (fuel : nat) (s : string) (acc : gmap string value)
  : option (value * string) :=
  match fuel with
  | O => None
  | S fuel =>
      match s with
      | String q rest =>
          if negb (code q =? 34)%N then None
          else
            match parse_string rest with
            | Some (key, after) =>
                match skip_ws after with
                | String colon after =>
                    if negb (code colon =? 58)%N then None
                    else
                      match parse_value fuel (skip_ws after) with
                      | Some (v, after) =>
                          match skip_ws after with
                          | String c rest =>
                              if (code c =? 44)%N
                              then parse_members fuel (skip_ws rest) (<[key := v]> acc)
                              else if (code c =? 125)%N
                              then Some (VDict (<[key := v]> acc), rest)
                              else None
                          | EmptyString => None
                          end
                      | None => None
                      end
                | EmptyString => None
                end
            | None => None
            end
      | EmptyString => None
      end
  end.

(** Whether [json.loads] would read the buffer as UTF-16 or UTF-32: a
    byte-order mark, or a NUL among the first bytes. *)
Definition wide_encoding (bs : list byte) : bool :=
  match Byte.to_N <$> bs with
  | [a; b] => ((a =? 0) || (b =? 0) || (a =? 255) && (b =? 254) || (a =? 254) && (b =? 255))%N
  | a :: b :: c :: d :: _ =>
      ((a =? 0) || (b =? 0) || (a =? 255) && (b =? 254) || (a =? 254) && (b =? 255))%N
  | a :: b :: _ => ((a =? 255) && (b =? 254) || (a =? 254) && (b =? 255))%N
  | _ => false
  end.

Definition ref_json_loads (bs : list byte) : result value :=
  let bad := Raise (Exn JSONDecodeError "Expecting value") in
  if wide_encoding bs then bad
  else if negb (utf8_valid (length bs) bs) then
    Raise (Exn UnicodeDecodeError "'utf-8' codec can't decode bytes")%string
  else
    let text :=
      match bs with
      | b0 :: b1 :: b2 :: rest =>
          if ((Byte.to_N b0 =? 239) && (Byte.to_N b1 =? 187) && (Byte.to_N b2 =? 191))%N
          then rest else bs
      | _ => bs
      end in
    match parse_value (2 * length text + 2) (skip_ws (string_of_list_byte text)) with
    | Some (v, after) =>
        match skip_ws after with
        | EmptyString => Ok v
        | _ => bad
        end
    | None => bad
    end.

#[export] Instance ref_runtime : PyRuntime := {|
  urlparse := ref_urlparse;
  str_upper := upper;
  json_loads := ref_json_loads;
  decode_utf8 := ref_decode_utf8;
  int_of_str := ref_int_of_str
|}.

(** The bytes of an ASCII text. *)
Definition b (s : string) : list byte := list_byte_of_string s.

End reference.

(** ** The retry loop of the transport

    [_create_session] hands a [Retry] to the HTTP adapter; the attempts
    themselves are made by urllib3 ([HTTPConnectionPool.urlopen] with
    [Retry.increment], [Retry.is_exhausted], [Retry.is_retry] and
    [Retry.get_backoff_time]).  This is that loop for a request without
    redirects and without [Retry-After] headers: [total] counts the
    retries left, a failed attempt decrements it, and the request is given
    up when it drops below zero. *)

Module urllib3.

Import api_handler.

(** What one attempt meets. *)
Inductive attempt : Type :=
| ConnectError
| ReadError
| Responded (status : Z).

Inductive transport_event : Type :=
| Attempt (outcome : attempt)
| Sleep (seconds : Q).

Inductive transport_end : Type :=
| Returned (status : Z)
| MaxRetryError
| Reraised
| ScriptExhausted.

(** [Retry._is_method_retryable]; requests hands the method over in
    upper case. *)
Definition is_method_retryable (policy : Retry) (method : string) : bool :=
  bool_decide (method ∈ allowed_methods policy).

(** [Retry.is_retry] for a response without a [Retry-After] header. *)
Definition is_retry (policy : Retry) (method : string) (status : Z) : bool :=
  is_method_retryable policy method && bool_decide (status ∈ status_forcelist policy).

(** [Retry.get_backoff_time] after [errors] consecutive failed attempts
    ([DEFAULT_BACKOFF_MAX] is 120). *)
Definition get_backoff_time (policy : Retry) (errors : nat) : Q :=
  if (errors <=? 1)%nat then 0%Q
  else
    let backoff_value :=
      Qred (backoff_factor policy * inject_Z (2 ^ (Z.of_nat errors - 1)))%Q in
    if Qle_bool backoff_value 120 then backoff_value else 120%Q.

(** [Retry.sleep]: no call to [time.sleep] for a backoff of zero. *)
Definition sleep (policy : Retry) (errors : nat) : list transport_event :=
  let backoff := get_backoff_time policy errors in
  if Qle_bool backoff 0 then [] else [Sleep backoff].

(** [urlopen]: one attempt per element of [script], the server's side of
    the exchange; [remaining] is [retries.total] and [errors] the length
    of [retries.history]. *)
Fixpoint urlopen (policy : Retry) (method : string) (script : list attempt)
    (remaining : Z) (errors : nat) : list transport_event * transport_end :=
  match script with
  | [] => ([], ScriptExhausted)
  | outcome :: script' =>
      let retry :=
        let remaining := remaining - 1 in
        let errors := S errors in
        if remaining <? 0 then ([Attempt outcome], MaxRetryError)
        else
          let '(events, e) := urlopen policy method script' remaining errors in
          (Attempt outcome :: sleep policy errors ++ events, e) in
      match outcome with
      | ConnectError => retry
      | ReadError =>
          if is_method_retryable policy method then retry
          else ([Attempt outcome], Reraised)
      | Responded status =>
          if is_retry policy method status then retry
          else ([Attempt outcome], Returned status)
      end
  end.

(** [Session.get_adapter]: the adapter mounted on a prefix of the URL. *)
Definition get_adapter (s : Session) (url : string) : option Retry :=
  snd <$> List.find (fun mounted : string * Retry => String.prefix mounted.1 (str_lower url))
            (adapters s).

(** A request sent through a session: [None] when no adapter is mounted
    for the URL ([InvalidSchema]). *)
Definition send (s : Session) (url method : string) (script : list attempt)
  : option (list transport_event * transport_end) :=
  match get_adapter s url with
  | Some policy => Some (urlopen policy method script (total policy) 0)
  | None => None
  end.

(** A transient failure: a network-level error, or a response whose
    status is on the force list of the policy. *)
Definition transient (policy : Retry) (outcome : attempt) : bool :=
  match outcome with
  | ConnectError | ReadError => true
  | Responded status => bool_decide (status ∈ status_forcelist policy)
  end.

Definition attempts (events : list transport_event) : nat :=
  length (List.filter (fun ev => match ev with Attempt _ => true | Sleep _ => false end) events).

Definition sleeps (events : list transport_event) : list Q :=
  omap (fun ev => match ev with Sleep q => Some q | Attempt _ => None end) events.

End urllib3.

(** ** app.py: the poll orchestrator *)

Module app.

(** [v[k]] for a string key. *)
Definition subscript (v : value) (k : string) : result value :=
  match v with
  | VDict d =>
      match d !! k with
      | Some x => Ok x
      | None => Raise (Exn KeyError ("'" +:+ k +:+ "'"))
      end
  | VStr _ => Raise (Exn TypeError "string indices must be integers")
  | VList _ | VTuple _ =>
      Raise (Exn TypeError (type_name v +:+ " indices must be integers or slices, not str"))
  | _ => Raise (Exn TypeError ("'" +:+ type_name v +:+ "' object is not subscriptable"))
  end.

(** [v.get(k, default)]. *)
Definition get (v : value) (k : string) (default : value) : result value :=
  match v with
  | VDict d => Ok (dict_get d k default)
  | _ => Raise (Exn AttributeError
                  ("'" +:+ type_name v +:+ "' object has no attribute 'get'"))
  end.

(** [s.split(" ", 1)]: at most two parts. *)
Fixpoint split_once (s : string) : string * option string :=
  match s with
  | EmptyString => (EmptyString, None)
  | String c rest =>
      if Ascii.eqb c " " then (EmptyString, Some rest)
      else let '(head, tail) := split_once rest in (String c head, tail)
  end.

(** What [requests.get] or [requests.post] hands back: the status, the
    headers, the outcome of [response.json()], and the text of the
    [HTTPError] that [raise_for_status] raises for a status from 400 to
    599. *)
Record HttpResponse : Type := {
  status_code : Z;
  headers : gmap string value;
  json : result value;
  http_error : string
}.

(** One iteration of the poll loop as the outside world decides it: the
    outcome of the HTTP call for a verb and a URL, the time the call
    takes, and the time the iteration takes beyond the call and the
    interval (the consumer taking the notification, [time.sleep]
    oversleeping).  Times are integers, in ticks of the clock. *)
Record tick_io : Type := {
  http_result : string -> string -> result HttpResponse;
  http_elapsed : Z;
  overhead : Z
}.

(** [execute_api_call(api_info, params)], with the time spent in the
    HTTP call.  [API_BASE_URL] is the module's global, [None] when the
    environment does not set it. *)
Definition execute_api_call `{PyRuntime} (API_BASE_URL : option string)
    (api_info : value) (params : value) (io : tick_io) : result value * Z :=
  match subscript api_info "endpoint" with
  | Raise e => (Raise e, 0)
  | Ok (VStr endpoint) =>
      match split_once endpoint with
      | (_, None) =>
          (Raise (Exn ValueError "not enough values to unpack (expected 2, got 1)"), 0)
      | (method, Some path) =>
          let url := default "None"%string API_BASE_URL +:+ path in
          let headers : gmap string value := {[ "Content-Type" := VStr "application/json" ]} in
          let attempt : result value :=
            match (if String.eqb (str_upper method) "POST"
                   then http_result io "POST" url
                   else http_result io "GET" url) with
            | Raise e => Raise e
            | Ok response =>
                if (400 <=? status_code response) && (status_code response <? 600)
                then Raise (Exn ReqHTTPError (http_error response))
                else
                  match json response with
                  | Raise e => Raise e
                  | Ok body =>
                      Ok (VDict {[
                        "request" := VDict {[ "method" := VStr method;
                                              "url" := VStr url;
                                              "params" := params;
                                              "headers" := VDict headers ]};
                        "response" := VDict {[ "status_code" := VInt (status_code response);
                                               "headers" := VDict (app.headers response);
                                               "body" := body ]} ]})
                  end
            end in
          (match attempt with
           | Raise e =>
               if is_RequestException e
               then Raise (Exn PlainException ("API call failed: " +:+ exn_str e))
               else Raise e
           | Ok r => Ok r
           end, http_elapsed io)
      end
  | Ok v =>
      (Raise (Exn AttributeError
                ("'" +:+ type_name v +:+ "' object has no attribute 'split'")), 0)
  end.

(** The payload of a progress notification, before it is framed as
    [data: <json>] and a blank line. *)
Inductive notification : Type :=
| PollingStatus (status : value) (data : value)
| ErrorWhilePolling (message : string).

(** What the generator does, in order: [Tick elapsed] marks the start of
    an iteration, the loop condition having held at [elapsed]. *)
Inductive poll_event : Type :=
| Tick (elapsed : Z)
| Yielded (n : notification)
| Slept (seconds : Z).

Inductive poll_end : Type :=
| Return
| Raised (e : exn).

(** The [try] block of one iteration: the notification yielded, and
    whether the generator returns after it. *)
Definition poll_once `{PyRuntime} (API_BASE_URL : option string)
    (api_info poll_id : value) (io : tick_io) : notification * bool * Z :=
  let '(r, dt) := execute_api_call API_BASE_URL api_info (VDict {[ "id" := poll_id ]}) io in
  let status :=
    match r with
    | Raise e => Raise e
    | Ok result =>
        match subscript result "response" with
        | Raise e => Raise e
        | Ok response =>
            match subscript response "body" with
            | Raise e => Raise e
            | Ok body =>
                match get body "expired" (VBool false) with
                | Raise e => Raise e
                | Ok status => Ok (status, result)
                end
            end
        end
    end in
  match status with
  | Ok (status, result) => (PollingStatus status result, truthy status, dt)
  | Raise e => (ErrorWhilePolling ("Error while polling: " +:+ exn_str e), false, dt)
  end.

(** [poll_status], run to its end by a consumer that takes every
    notification.  [world i] decides the [i]-th iteration; [elapsed] is
    [time.time() - start_time] when the loop condition is evaluated.
    [None] when [fuel] iterations do not reach the end. *)
Fixpoint poll_loop `{PyRuntime} (fuel : nat) (world : nat -> tick_io)
    (API_BASE_URL : option string) (api_info poll_id : value)
    (max_duration interval : Z) (i : nat) (elapsed : Z)
  : option (list poll_event * poll_end) :=
  if elapsed <? max_duration then
    match fuel with
    | O => None
    | S fuel =>
        let '(n, done, dt) := poll_once API_BASE_URL api_info poll_id (world i) in
        if done then Some ([Tick elapsed; Yielded n], Return)
        else if interval <? 0 then
          Some ([Tick elapsed; Yielded n],
                Raised (Exn ValueError "sleep length must be non-negative"))
        else
          match poll_loop fuel world API_BASE_URL api_info poll_id max_duration interval
                  (S i) (elapsed + dt + interval + overhead (world i)) with
          | Some (events, e) =>
              Some (Tick elapsed :: Yielded n :: Slept interval :: events, e)
          | None => None
          end
    end
  else Some ([], Raised (Exn BuiltinTimeoutError "Polling timed out")).

Definition poll_status `{PyRuntime} (fuel : nat) (world : nat -> tick_io)
    (API_BASE_URL : option string) (api_info poll_id : value)
    (max_duration interval : Z) : option (list poll_event * poll_end) :=
  poll_loop fuel world API_BASE_URL api_info poll_id max_duration interval 0 0.

Definition ticks (events : list poll_event) : list Z :=
  omap (fun ev => match ev with Tick t => Some t | _ => None end) events.


End app.

(** ** Concrete inputs

    Configurations, responses and transports on which the embedding is
    run below. *)

Module fixtures.

Import api_handler reference.

(** The example configuration at the end of [api_handler.py]. *)
Definition main_config : gmap string value :=
  {[ "name" := VStr "Get Countries";
     "description" := VStr "Fetch all countries data";
     "endpoint" := VStr "https://restcountries.com/v3.1/all";
     "method" := VStr "GET";
     "headers" := VDict {[ "Content-Type" := VStr "application/json" ]} ]}.

Definition main_validated : gmap string value :=
  {[ "endpoint" := VStr "https://restcountries.com/v3.1/all";
     "method" := VStr "GET";
     "headers" := VDict {[ "Content-Type" := VStr "application/json" ]};
     "payload" := VNone ]}.

(** The first test of [test_api_handler.py], its method in lower case. *)
Definition lowercase_config : gmap string value :=
  {[ "endpoint" := VStr "http://localhost:8000/api/test";
     "method" := VStr "get" ]}.

Definition ftp_config : gmap string value :=
  {[ "endpoint" := VStr "ftp://localhost/api/test"; "method" := VStr "GET" ]}.

Definition test_config : gmap string value :=
  {[ "endpoint" := VStr "http://localhost:8000/api/test";
     "method" := VStr "GET";
     "headers" := VDict {[ "Content-Type" := VStr "application/json" ]} ]}.

Definition test_handler : APIHandler :=
  {| config := {[ "endpoint" := VStr "http://localhost:8000/api/test";
                  "method" := VStr "GET";
                  "headers" := VDict {[ "Content-Type" := VStr "application/json" ]};
                  "payload" := VNone ]};
     session := _create_session |}.

Definition test_kwargs : gmap string value :=
  {[ "url" := VStr "http://localhost:8000/api/test";
     "headers" := VDict {[ "Content-Type" := VStr "application/json" ]};
     "timeout" := VTuple [VInt 5; VInt 60];
     "stream" := VBool true ]}.

Definition json_headers : gmap string (string * string) :=
  {[ "content-type" := ("Content-Type", "application/json") ]}%string.

(** A 200 response declaring JSON, with the given stream. *)
Definition json_response (chunks : list (list byte)) (e : iter_end) : Response :=
  {| status_code := 200;
     reason := "OK";
     headers := json_headers;
     url := "http://localhost:8000/api/test";
     raw_chunks := chunks;
     raw_end := e |}.

(** A body that is not JSON. *)
Definition malformed : Response := json_response [b "{bad"] IterDone.

(** A stream that breaks after its first chunk. *)
Definition connection_broken : exn :=
  Exn (OtherException "ChunkedEncodingError") "Connection broken".

Definition broken : Response := json_response [b "{"] (IterRaise connection_broken).

(** A stream on which the read times out after the first chunk:
    [iter_content] raises the [ConnectionError] of requests. *)
Definition read_timed_out : exn := Exn ReqConnectionError "Read timed out.".

Definition stalled : Response := json_response [b "{"] (IterRaise read_timed_out).

(** A transport that answers every request with [response]. *)
Definition answering (response : Response) : transport := fun _ _ => Ok response.

(** [test_handler] with the empty mapping as its payload. *)
Definition empty_payload_handler : APIHandler :=
  {| config := {[ "endpoint" := VStr "http://localhost:8000/api/test";
                  "method" := VStr "GET";
                  "headers" := VDict {[ "Content-Type" := VStr "application/json" ]};
                  "payload" := VDict ∅ ]};
     session := _create_session |}.

(** Four attempts that all meet a 503. *)
Definition always_503 : list urllib3.attempt :=
  [urllib3.Responded 503; urllib3.Responded 503; urllib3.Responded 503;
   urllib3.Responded 503].

(** The descriptor of a poll endpoint. *)
Definition status_api : value := VDict {[ "endpoint" := VStr "GET /status" ]}.

(** An endpoint that answers at once, with the given [expired] flag. *)
Definition status_world (expired : bool) : nat -> app.tick_io :=
  fun _ =>
    {| app.http_result := fun _ _ =>
         Ok {| app.status_code := 200;
               app.headers := ∅;
               app.json := Ok (VDict {[ "expired" := VBool expired ]});
               app.http_error := "" |};
       app.http_elapsed := 0;
       app.overhead := 0 |}.

End fixtures.

(** ** The pipeline without its effects

    What [_handle_response] returns and what it logs, as functions of the
    response: the envelope and the log are read off the code path by
    path, and the code is proved to compute them. *)

Module pipeline.

Import api_handler.

Definition is_log (ev : event) : bool :=
  match ev with
  | EvLog _ _ | EvLogProgress _ _ => true
  | _ => false
  end.

Definition is_progress (ev : event) : bool :=
  match ev with
  | EvLogProgress _ _ => true
  | _ => false
  end.

Definition is_request (ev : event) : bool :=
  match ev with
  | EvRequest _ _ => true
  | _ => false
  end.

(** Whether a call returned. *)
Definition is_Ok {A} (r : result A) : bool :=
  match r with
  | Ok _ => true
  | Raise _ => false
  end.

(** The chunks a generator yields. *)
Definition chunks_of (items : list gen_item) : list (list byte) :=
  omap (fun item => match item with
                    | Yield chunk => Some chunk
                    | Effect _ => None
                    end) items.

(** What the loop over the generator logs: the effects of the generator
    and, for a declared length above 1,000,000, one progress line per
    chunk, with the bytes accumulated so far. *)
Fixpoint accumulated_log (content_length : Z) (items : list gen_item)
    (accumulated_data : list byte) : list event :=
  match items with
  | [] => []
  | Effect ev :: rest => ev :: accumulated_log content_length rest accumulated_data
  | Yield chunk :: rest =>
      (if 1000000 <? content_length
       then [EvLogProgress (len (accumulated_data ++ chunk)) content_length]
       else [])
        ++ accumulated_log content_length rest (accumulated_data ++ chunk)
  end.

(** The outcome of the decoder the content type selects. *)
Definition decoded `{PyRuntime} (response : Response) : result value :=
  if str_contains "application/json" (content_type_of response)
  then json_loads (assembled response)
  else match decode_utf8 (assembled response) with
       | Ok s => Ok (VStr s)
       | Raise e => Raise e
       end.

(** The envelope for a response whose handling raised [e]. *)
Definition processing_failure (method : value) (response : Response) (e : exn)
  : gmap string value :=
  failure_envelope (status_code response)
    ("Error processing response: " +:+ exn_str e) method (VStr (url response)).

(** The success-shaped envelope around a decoded body. *)
Definition response_envelope (method : value) (response : Response) (data : value)
  : gmap string value :=
  {[ "success" := VBool (ok response);
     "status_code" := VInt (status_code response);
     "status_text" := VStr (reason response);
     "headers" := VDict (headers_dict (headers response));
     "data" := data;
     "url" := VStr (url response);
     "method" := method;
     "size" := VInt (len (assembled response)) ]}.

(** The envelope of [_handle_response] for a handler whose method is
    [method]. *)
Definition handled `{PyRuntime} (method : value) (response : Response)
  : gmap string value :=
  match content_length_of response with
  | Raise e => processing_failure method response e
  | Ok _ =>
      match raw_end response with
      | IterRaise e => processing_failure method response e
      | _ =>
          match decoded response with
          | Ok data => response_envelope method response data
          | Raise e =>
              if is_decode_error e
              then response_envelope method response
                     (VStr (bytearray_str (assembled response)))
              else processing_failure method response e
          end
      end
  end.

(** What [_handle_response] logs. *)
Definition handled_log `{PyRuntime} (response : Response) : list event :=
  let failed (e : exn) := [EvLog ERROR ("Error handling response: " +:+ exn_str e)] in
  match content_length_of response with
  | Raise e => failed e
  | Ok content_length =>
      accumulated_log content_length (_stream_response response).1 []
        ++ match raw_end response with
           | IterRaise e => failed e
           | _ =>
               match decoded response with
               | Ok _ => []
               | Raise e =>
                   if is_decode_error e
                   then [EvLog WARNING ("Error decoding response: " +:+ exn_str e)]
                   else failed e
               end
           end
  end.

(** The response that delivers, as a last chunk of a complete stream,
    the partial bytes of a truncated one. *)
Definition delivered (response : Response) (partial : list byte) : Response :=
  {| status_code := status_code response;
     reason := reason response;
     headers := headers response;
     url := url response;
     raw_chunks := raw_chunks response ++ [partial];
     raw_end := IterDone |}.

End pipeline.

(** ** Configurations with values of the wrong type *)

Module type_fixtures.

(** A configuration whose method is JSON's [null]. *)
Definition null_method_config : gmap string value :=
  {[ "endpoint" := VStr "http://localhost:8000/api/test";
     "method" := VNone ]}.

(** A configuration whose headers are a list. *)
Definition list_headers_config : gmap string value :=
  {[ "endpoint" := VStr "http://localhost:8000/api/test";
     "method" := VStr "GET";
     "headers" := VList [VStr "Content-Type"] ]}.

End type_fixtures.

(** ** The rendering of a byte buffer *)

Lemma string_length_app (s1 s2 : string) :
  String.length (s1 +:+ s2) = (String.length s1 + String.length s2)%nat.
Proof. induction s1 as [|c s1 IH]; simpl; [reflexivity|]. rewrite IH. reflexivity. Qed.

Lemma string_app_empty (s : string) : s +:+ "" = s.
Proof.
  induction s as [|c s IH]; [reflexivity|].
  change (String c (s +:+ "") = String c s). rewrite IH. reflexivity.
Qed.

Lemma bytearray_repr_byte_length (c : byte) :
  (1 <= String.length (bytearray_repr_byte c))%nat.
Proof.
  unfold bytearray_repr_byte.
  repeat (match goal with |- context [if ?x then _ else _] => destruct x end); simpl; lia.
Qed.

Lemma bytearray_repr_length (bs : list byte) :
  (length bs <= String.length (String.concat "" (map bytearray_repr_byte bs)))%nat.
Proof.
  induction bs as [|c bs IH]; [simpl; lia|].
  pose proof (bytearray_repr_byte_length c) as Hc.
  assert (String.concat "" (map bytearray_repr_byte (c :: bs))
          = bytearray_repr_byte c +:+ String.concat "" (map bytearray_repr_byte bs)) as ->.
  { change (map bytearray_repr_byte (c :: bs))
      with (bytearray_repr_byte c :: map bytearray_repr_byte bs).
    destruct (map bytearray_repr_byte bs); [|reflexivity].
    symmetry. apply string_app_empty. }
  rewrite string_length_app. simpl. lia.
Qed.

Lemma string_of_list_byte_length (bs : list byte) :
  String.length (string_of_list_byte bs) = length bs.
Proof.
  unfold string_of_list_byte.
  induction bs as [|c bs IH]; simpl; [reflexivity|]. rewrite IH. reflexivity.
Qed.

(** [str(bytearray)] is longer than the buffer, so it is never the text
    the buffer holds. *)
Lemma bytearray_str_not_text (bs : list byte) :
  bytearray_str bs <> string_of_list_byte bs.
Proof.
  intros Heq. apply (f_equal String.length) in Heq.
  rewrite string_of_list_byte_length in Heq. unfold bytearray_str in Heq.
  rewrite !string_length_app in Heq.
  pose proof (bytearray_repr_length bs). simpl in Heq. lia.
Qed.

(** * Properties *)

(** ** Configuration validation *)

Section validation.

Import api_handler.
Context `{PyRuntime}.

(** A configuration that passes validation comes out as exactly four
    fields, the endpoint and the payload as given. *)
Lemma validate_inv raw cfg :
  _validate_config raw = Ok cfg ->
  exists method hdrs,
    cfg = {[ "endpoint" := dict_get raw "endpoint" VNone;
             "method" := VStr method;
             "headers" := VDict hdrs;
             "payload" := dict_get raw "payload" VNone ]}
    /\ method ∈ supported_methods
    /\ upper_method raw = Ok method
    /\ dict_get raw "headers" (VDict ∅) = VDict hdrs.
Proof.
  unfold _validate_config. intros Hv.
  destruct (truthy (dict_get raw "endpoint" VNone)); simpl in Hv; [|discriminate].
  destruct (check_endpoint _); [|discriminate].
  destruct (upper_method raw) as [method|]; [|discriminate].
  case_bool_decide as Hm; simpl in Hv; [|discriminate].
  destruct (dict_get raw "headers" (VDict ∅)) as [| | | | | | |hdrs]; try discriminate.
  inversion Hv; subst. eauto 6.
Qed.

(** Every exception of the endpoint checks leaves the validator as a
    [ValueError]. *)
Lemma validate_endpoint_error raw e :
  check_endpoint (dict_get raw "endpoint" VNone) = Raise e ->
  exists e', _validate_config raw = Raise e' /\ exn_cls e' = ValueError.
Proof.
  intros He. unfold _validate_config. rewrite He.
  destruct (truthy _); simpl; eauto.
Qed.

Lemma validate_missing_endpoint raw :
  raw !! "endpoint" = None ->
  _validate_config raw = Raise (Exn ValueError "API endpoint is required").
Proof.
  intros Hm. unfold _validate_config, dict_get. rewrite Hm. reflexivity.
Qed.

Lemma check_endpoint_scheme endpoint scheme netloc :
  urlparse endpoint = Ok (scheme, netloc) ->
  scheme ∉ ["http"; "https"]%string ->
  exists e, check_endpoint endpoint = Raise e.
Proof.
  intros Hu Hs. unfold check_endpoint. rewrite Hu.
  destruct (truthy (VStr scheme) && truthy (VStr netloc)); simpl; eauto.
  rewrite (bool_decide_eq_false_2 _ Hs). simpl. eauto.
Qed.

Lemma validate_unsupported_method raw s :
  dict_get raw "method" (VStr "GET") = VStr s ->
  str_upper s ∉ supported_methods ->
  exists e, _validate_config raw = Raise e /\ exn_cls e = ValueError.
Proof.
  intros Hm Hs. unfold _validate_config, upper_method. rewrite Hm.
  destruct (truthy _); simpl; eauto.
  destruct (check_endpoint _); eauto.
  rewrite (bool_decide_eq_false_2 _ Hs). simpl. eauto.
Qed.

(** A configuration the validator rejects reaches no transport: the
    entry point returns an envelope and the trace of effects is the one
    it started with. *)
Lemma rejected_no_io raw e net auth_token tr :
  _validate_config raw = Raise e ->
  handle_api_request net raw auth_token tr
  = (Ok (failure_envelope 500 (exn_str e)
           (dict_get raw "method" (VStr "GET")) (dict_get raw "endpoint" (VStr ""))), tr).
Proof.
  intros Hv. unfold handle_api_request, try_except, __init__.
  rewrite Hv. reflexivity.
Qed.

(** X20.  A configuration without an endpoint, or whose endpoint parses
    with a scheme other than http and https, or whose method is a string
    that, once upper-cased, is none of GET, POST, PUT, PATCH and DELETE,
    is rejected by the validator with a [ValueError]; the handler is not
    constructed, and the entry point returns without any effect: no
    transport call is made. *)
Theorem invalid_config_rejected (raw : gmap string value) :
  raw !! "endpoint" = None
  \/ (exists scheme netloc,
        urlparse (dict_get raw "endpoint" VNone) = Ok (scheme, netloc)
        /\ scheme ∉ ["http"; "https"]%string)
  \/ (exists s,
        dict_get raw "method" (VStr "GET") = VStr s
        /\ str_upper s ∉ supported_methods) ->
  exists e,
    _validate_config raw = Raise e
    /\ exn_cls e = ValueError
    /\ __init__ raw = Raise e
    /\ forall net auth_token tr,
        exists env, handle_api_request net raw auth_token tr = (Ok env, tr).
Proof.
  intros Hbad.
  assert (exists e, _validate_config raw = Raise e /\ exn_cls e = ValueError)
    as (e & Hv & Hc).
  { destruct Hbad as [Hmiss | [(scheme & netloc & Hu & Hs) | (s & Hm & Hs)]].
    - rewrite (validate_missing_endpoint _ Hmiss). eauto.
    - destruct (check_endpoint_scheme _ _ _ Hu Hs) as [e He].
      eapply validate_endpoint_error; eassumption.
    - eapply validate_unsupported_method; eassumption. }
  exists e. split; [assumption|]. split; [assumption|]. split.
  - unfold __init__. rewrite Hv. reflexivity.
  - intros net auth_token tr. eexists. apply (rejected_no_io _ _ _ _ _ Hv).
Qed.

(** C8, as the code has it.  The validated configuration has the four
    fields endpoint, method, headers and payload and no other: a field of
    the raw configuration under another name is dropped.  The payload is
    the raw configuration's own [payload] field, unchanged and unchecked
    ([None] when it has none). *)
Theorem extra_fields_dropped (raw cfg : gmap string value) :
  _validate_config raw = Ok cfg ->
  dom cfg = {[ "endpoint"; "method"; "headers"; "payload" ]}%string
  /\ cfg !! "payload" = Some (dict_get raw "payload" VNone)
  /\ forall k, k ∉ ["endpoint"; "method"; "headers"; "payload"]%string -> cfg !! k = None.
Proof.
  intros Hv. destruct (validate_inv _ _ Hv) as (method & hdrs & -> & _).
  split; [|split].
  - rewrite !dom_insert_L, dom_singleton_L. set_solver.
  - reflexivity.
  - intros k Hk. rewrite !lookup_insert_ne, lookup_singleton_ne; set_solver.
Qed.

End validation.

(** ** The request executor *)

Section executor.

Import api_handler pipeline.
Context `{PyRuntime}.

Lemma validated_lookups (endpoint method hdrs payload : value) :
  ({[ "endpoint" := endpoint; "method" := method; "headers" := hdrs;
      "payload" := payload ]} : gmap string value) !! "endpoint" = Some endpoint
  /\ ({[ "endpoint" := endpoint; "method" := method; "headers" := hdrs;
         "payload" := payload ]} : gmap string value) !! "method" = Some method
  /\ ({[ "endpoint" := endpoint; "method" := method; "headers" := hdrs;
         "payload" := payload ]} : gmap string value) !! "headers" = Some hdrs
  /\ ({[ "endpoint" := endpoint; "method" := method; "headers" := hdrs;
         "payload" := payload ]} : gmap string value) !! "payload" = Some payload.
Proof. repeat split; reflexivity. Qed.

Lemma init_well_formed raw self : __init__ raw = Ok self -> well_formed self.
Proof.
  unfold __init__. intros Hi.
  destruct (_validate_config raw) as [cfg|] eqn:Hv; [|discriminate].
  inversion Hi; subst; clear Hi.
  destruct (validate_inv _ _ Hv) as (method & hdrs & -> & Hm & _).
  exists (dict_get raw "endpoint" VNone), method, hdrs, (dict_get raw "payload" VNone).
  cbn [config].
  destruct (validated_lookups (dict_get raw "endpoint" VNone) (VStr method) (VDict hdrs)
              (dict_get raw "payload" VNone)) as (Le & Lm & Lh & Lp).
  repeat split; assumption.
Qed.

(** A handler built by [__init__] always has its request parameters. *)
Lemma request_params_total self auth_token :
  well_formed self ->
  exists method kwargs,
    request_params self auth_token = Ok (VStr method, kwargs)
    /\ config self !! "method" = Some (VStr method).
Proof.
  intros (endpoint & method & hdrs & payload & He & Hm & Hh & Hp & _).
  unfold request_params, getitem, dict_get. rewrite Hh, He, Hm, Hp. simpl.
  exists method.
  destruct auth_token as [tok|]; [destruct (truthy (VStr tok))|]; simpl;
    repeat (match goal with |- context [if ?b then _ else _] => destruct b end);
    eauto.
Qed.

Lemma failure_run self code error tr method endpoint :
  config self !! "method" = Some method ->
  config self !! "endpoint" = Some endpoint ->
  failure self code error tr = (Ok (failure_envelope code error method endpoint), tr).
Proof.
  intros Hm He. unfold failure, getitem. rewrite Hm, He. reflexivity.
Qed.

(** [execute], step by step, once the request parameters are known. *)
Lemma execute_run net self auth_token tr method kwargs m endpoint :
  request_params self auth_token = Ok (method, kwargs) ->
  config self !! "method" = Some m ->
  config self !! "endpoint" = Some endpoint ->
  execute net self auth_token tr =
    match net method kwargs with
    | Raise e =>
        (Ok (if is_Timeout e then failure_envelope 408 "Request timed out" m endpoint
             else if is_ConnectionError e then
               failure_envelope 503 ("Connection error: " +:+ exn_str e) m endpoint
             else failure_envelope 500 (exn_str e) m endpoint),
         tr ++ [EvRequest method kwargs] ++ [EvSessionClose])
    | Ok response =>
        match _handle_response self response (tr ++ [EvRequest method kwargs]) with
        | (Ok env, tr') => (Ok env, (tr' ++ [EvResponseClose]) ++ [EvSessionClose])
        | (Raise e, tr') =>
            (Ok (if is_Timeout e then failure_envelope 408 "Request timed out" m endpoint
                 else if is_ConnectionError e then
                   failure_envelope 503 ("Connection error: " +:+ exn_str e) m endpoint
                 else failure_envelope 500 (exn_str e) m endpoint),
             (tr' ++ [EvResponseClose]) ++ [EvSessionClose])
        end
    end.
Proof.
  intros Hrp Hm He. unfold execute. run. rewrite Hrp. simpl.
  destruct (net method kwargs) as [response|e]; simpl.
  - destruct (_handle_response self response _) as [[env|e] tr']; simpl; [reflexivity|].
    destruct (is_Timeout e); [|destruct (is_ConnectionError e)];
      rewrite (failure_run _ _ _ _ _ _ Hm He); simpl; reflexivity.
  - destruct (is_Timeout e); [|destruct (is_ConnectionError e)];
      rewrite (failure_run _ _ _ _ _ _ Hm He); simpl; rewrite <- app_assoc; reflexivity.
Qed.

(** *** Assembling the body *)

Lemma concat_filter_nonempty (chunks : list (list byte)) :
  concat (List.filter nonempty chunks) = concat chunks.
Proof.
  induction chunks as [|c chunks IH]; [reflexivity|].
  simpl. destruct c; simpl; rewrite IH; reflexivity.
Qed.

Lemma yielded_app items1 items2 : yielded (items1 ++ items2) = yielded items1 ++ yielded items2.
Proof. unfold yielded. rewrite omap_app, concat_app. reflexivity. Qed.

Lemma yielded_yield chunk items : yielded (Yield chunk :: items) = chunk ++ yielded items.
Proof. reflexivity. Qed.

Lemma yielded_effect ev items : yielded (Effect ev :: items) = yielded items.
Proof. reflexivity. Qed.

Lemma yielded_chunks (chunks : list (list byte)) : yielded (Yield <$> chunks) = concat chunks.
Proof.
  induction chunks as [|c chunks IH]; [reflexivity|].
  rewrite fmap_cons, yielded_yield, IH. reflexivity.
Qed.

(** The generator yields the bytes of the stream, empty chunks apart. *)
Lemma stream_response_yielded response :
  yielded (_stream_response response).1 = assembled response.
Proof.
  unfold _stream_response, assembled.
  destruct (raw_end response) as [|e_str partial|e]; simpl;
    rewrite ?yielded_app, yielded_chunks, concat_filter_nonempty.
  - rewrite app_nil_r. reflexivity.
  - f_equal. destruct partial; simpl;
      rewrite yielded_effect, ?yielded_yield; [reflexivity | apply app_nil_r].
  - reflexivity.
Qed.

Lemma stream_response_end response :
  (_stream_response response).2
  = match raw_end response with IterRaise e => Some e | _ => None end.
Proof. unfold _stream_response. destruct (raw_end response); reflexivity. Qed.

(** The loop over the generator does not raise by itself. *)
Lemma accumulate_run content_length items acc tr :
  exists tr', accumulate content_length items acc tr = (Ok (acc ++ yielded items), tr').
Proof.
  revert acc tr. induction items as [|[chunk|ev] items IH]; intros acc tr.
  - exists tr. simpl. rewrite app_nil_r. reflexivity.
  - simpl. run.
    destruct (1000000 <? content_length); simpl;
      edestruct IH as [tr' ->]; exists tr';
      rewrite yielded_yield, app_assoc; reflexivity.
  - simpl. run. edestruct IH as [tr' ->]. exists tr'. rewrite yielded_effect. reflexivity.
Qed.

Lemma stream_all_run content_length response tr :
  exists tr',
    stream_all content_length (_stream_response response) tr
    = (match raw_end response with
       | IterRaise e => Raise e
       | _ => Ok (assembled response)
       end, tr').
Proof.
  unfold stream_all. run.
  destruct (accumulate_run content_length (_stream_response response).1 [] tr) as [tr' ->].
  simpl. rewrite stream_response_yielded, stream_response_end.
  exists tr'. destruct (raw_end response); reflexivity.
Qed.

(** *** Handling the response *)

(** A failure while the response is handled is reported with the
    response's own status code. *)
Lemma handle_response_failure self response tr method :
  config self !! "method" = Some method ->
  forall (inner : M (gmap string value)) e tr0,
    inner tr = (Raise e, tr0) ->
    exists tr',
      try_except inner
        (fun e =>
           emit (EvLog ERROR ("Error handling response: " +:+ exn_str e));;
           method ← lift (getitem (config self) "method");
           mret (failure_envelope (status_code response)
                   ("Error processing response: " +:+ exn_str e) method
                   (VStr (url response)))) tr
      = (Ok (failure_envelope (status_code response)
               ("Error processing response: " +:+ exn_str e) method (VStr (url response))),
         tr').
Proof.
  intros Hm inner e tr0 Hin. run. rewrite Hin. unfold getitem. rewrite Hm.
  eexists. reflexivity.
Qed.

(** [_handle_response] when the stream breaks. *)
Lemma handle_response_stream_error self response tr method n e :
  config self !! "method" = Some method ->
  content_length_of response = Ok n ->
  raw_end response = IterRaise e ->
  exists tr',
    _handle_response self response tr
    = (Ok (failure_envelope (status_code response)
             ("Error processing response: " +:+ exn_str e) method (VStr (url response))),
       tr').
Proof.
  intros Hm Hn He. unfold _handle_response.
  destruct (stream_all_run n response tr) as [tr0 Hs]. rewrite He in Hs.
  eapply handle_response_failure; [eassumption|].
  run. rewrite Hn. simpl. unfold mbind, M_bind in Hs |- *.
  unfold stream_all in Hs. unfold stream_all. run. 
  unfold mbind, M_bind, mret, M_ret, ret, raise in Hs. rewrite Hs. reflexivity.
Qed.

(** The fallback of the classifier. *)
Lemma decode_fallback content_type bytes tr e :
  str_contains "application/json" content_type = true ->
  json_loads bytes = Raise e ->
  is_decode_error e = true ->
  decode content_type bytes tr
  = (Ok (VStr (bytearray_str bytes)),
     tr ++ [EvLog WARNING ("Error decoding response: " +:+ exn_str e)]).
Proof.
  intros Hct Hj He. unfold decode. run. rewrite Hct, Hj, He. reflexivity.
Qed.

(** [_handle_response] when the body is assembled but is not the JSON
    its content type declares: both decoders share one fallback, the
    [str()] of the [bytearray]. *)
Lemma handle_response_decode_fallback self response tr method n e :
  config self !! "method" = Some method ->
  content_length_of response = Ok n ->
  completes response = true ->
  str_contains "application/json" (content_type_of response) = true ->
  json_loads (assembled response) = Raise e ->
  is_decode_error e = true ->
  exists tr',
    _handle_response self response tr
    = (Ok {[ "success" := VBool (ok response);
             "status_code" := VInt (status_code response);
             "status_text" := VStr (reason response);
             "headers" := VDict (headers_dict (headers response));
             "data" := VStr (bytearray_str (assembled response));
             "url" := VStr (url response);
             "method" := method;
             "size" := VInt (len (assembled response)) ]}, tr').
Proof.
  intros Hm Hn Hend Hct Hj He. unfold _handle_response.
  destruct (stream_all_run n response tr) as [tr0 Hs].
  assert (stream_all n (_stream_response response) tr = (Ok (assembled response), tr0)) as Hs'.
  { rewrite Hs. unfold completes in Hend.
    destruct (raw_end response) as [| |e']; try reflexivity. discriminate. }
  clear Hs. run. rewrite Hn. simpl. rewrite Hs'.
  rewrite (decode_fallback _ _ _ _ Hct Hj He). unfold getitem. rewrite Hm.
  eexists. reflexivity.
Qed.

(** [_handle_response] never raises, and whatever happens the envelope
    carries the response's own status code. *)
Lemma handle_response_total self response tr method :
  config self !! "method" = Some method ->
  exists env tr',
    _handle_response self response tr = (Ok env, tr')
    /\ env !! "status_code" = Some (VInt (status_code response))
    /\ (env !! "success" = Some (VBool (ok response))
        \/ exists e,
             env = failure_envelope (status_code response)
                     ("Error processing response: " +:+ exn_str e) method
                     (VStr (url response))).
Proof.
  intros Hm. unfold _handle_response.
  match goal with |- context [try_except ?inner _ tr] => destruct (inner tr) as [[env|e] tr0] eqn:Hin end.
  - exists env, tr0. unfold try_except at 1. rewrite Hin. split; [reflexivity|].
    revert Hin. run.
    destruct (content_length_of response) as [n|]; [|discriminate]. simpl.
    destruct (stream_all n (_stream_response response) tr) as [[acc|] tr1]; [|discriminate].
    destruct (decode _ acc tr1) as [[data|] tr2]; [|discriminate].
    unfold getitem. rewrite Hm. intros Henv. inversion Henv; subst.
    split; [reflexivity|]. left. reflexivity.
  - destruct (handle_response_failure self response tr method Hm _ e tr0 Hin) as [tr' Hf].
    eexists _, tr'. split; [exact Hf|]. split; [reflexivity|]. right. eauto.
Qed.

(** *** What the handling returns and logs *)

(** The loop over the generator returns the bytes yielded and appends
    its log to the trace. *)
Lemma accumulate_writes content_length items acc tr :
  accumulate content_length items acc tr
  = (Ok (acc ++ yielded items), tr ++ accumulated_log content_length items acc).
Proof.
  revert acc tr. induction items as [|[chunk|ev] items IH]; intros acc tr.
  - simpl. rewrite !app_nil_r. reflexivity.
  - cbn [accumulate accumulated_log]. run.
    destruct (1000000 <? content_length); simpl; rewrite IH, yielded_yield;
      rewrite <- ?app_assoc; reflexivity.
  - cbn [accumulate accumulated_log]. run. rewrite IH, yielded_effect.
    rewrite <- app_assoc. reflexivity.
Qed.

Lemma stream_all_writes content_length response tr :
  stream_all content_length (_stream_response response) tr
  = (match raw_end response with
     | IterRaise e => Raise e
     | _ => Ok (assembled response)
     end,
     tr ++ accumulated_log content_length (_stream_response response).1 []).
Proof.
  unfold stream_all. run. rewrite accumulate_writes. simpl.
  rewrite stream_response_yielded, stream_response_end.
  destruct (raw_end response); reflexivity.
Qed.

Lemma decode_writes response tr :
  decode (content_type_of response) (assembled response) tr
  = match decoded response with
    | Ok data => (Ok data, tr)
    | Raise e =>
        if is_decode_error e
        then (Ok (VStr (bytearray_str (assembled response))),
              tr ++ [EvLog WARNING ("Error decoding response: " +:+ exn_str e)])
        else (Raise e, tr)
    end.
Proof.
  unfold decode, decoded. run.
  destruct (str_contains "application/json" (content_type_of response)).
  - destruct (json_loads _) as [v|e]; [reflexivity|]. destruct (is_decode_error e); reflexivity.
  - destruct (decode_utf8 _) as [s|e]; [reflexivity|]. destruct (is_decode_error e); reflexivity.
Qed.

(** [_handle_response], for a handler that has its method, returns
    [handled] and appends [handled_log] to the trace. *)
Lemma handle_response_writes self response method tr :
  config self !! "method" = Some method ->
  _handle_response self response tr
  = (Ok (handled method response), tr ++ handled_log response).
Proof.
  intros Hm. unfold _handle_response, handled, handled_log, processing_failure,
    response_envelope.
  unfold try_except at 1. unfold mbind, M_bind at 1. unfold lift at 1.
  destruct (content_length_of response) as [n|e].
  - unfold mbind, M_bind at 1. rewrite stream_all_writes.
    destruct (raw_end response) as [|e_str partial|e] eqn:Hend.
    + unfold mbind, M_bind at 1. rewrite decode_writes.
      destruct (decoded response) as [data|e]; [|destruct (is_decode_error e)];
        run; unfold getitem; rewrite Hm; rewrite <- ?app_assoc, ?app_nil_r; reflexivity.
    + unfold mbind, M_bind at 1. rewrite decode_writes.
      destruct (decoded response) as [data|e]; [|destruct (is_decode_error e)];
        run; unfold getitem; rewrite Hm; rewrite <- ?app_assoc, ?app_nil_r; reflexivity.
    + run. unfold getitem. rewrite Hm. rewrite <- ?app_assoc. reflexivity.
  - run. unfold getitem. rewrite Hm. reflexivity.
Qed.

(** *** The envelope of [execute] *)

(** [execute] returns for every handler [__init__] can build. *)
Lemma execute_total net self auth_token tr :
  well_formed self ->
  exists env tr', execute net self auth_token tr = (Ok env, tr').
Proof.
  intros Hwf.
  destruct (request_params_total self auth_token Hwf) as (method & kwargs & Hrp & Hm).
  destruct Hwf as (endpoint & _ & _ & _ & He & _).
  rewrite (execute_run net self auth_token tr _ _ _ _ Hrp Hm He).
  destruct (net (VStr method) kwargs) as [response|e]; [|eauto].
  destruct (handle_response_total self response (tr ++ [EvRequest (VStr method) kwargs])
              (VStr method) Hm) as (env & tr' & -> & _).
  eauto.
Qed.

(** C1, as the code has it.  For a handler built from a configuration
    that passed validation, and any credential, [execute] returns an
    envelope and never raises.  When the transport raises instead of
    handing back a response, the envelope is the failure envelope with
    local status 408 for a timeout, 503 for a connection error that is
    not a timeout, and 500 with the exception's message for any other
    exception.  When a response was obtained, the envelope carries the
    response's own status code, and it is decided by what happens while
    the response is handled: an exception [e] raised then (by the
    conversion of the declared length, by the stream, unless it is a
    partial read, or by the decoder, unless it is a decode error) gives
    the failure envelope with the response's status code and the error
    [Error processing response: ] followed by the message of that very
    [e]; otherwise the envelope is the success-shaped one, around the
    decoded body or, after a decode error, around the [str()] of the
    byte buffer. *)
Theorem execute_never_raises (net : transport) (raw : gmap string value)
    (self : APIHandler) (auth_token : option string) (tr : list event) :
  __init__ raw = Ok self ->
  exists method kwargs endpoint env tr',
    request_params self auth_token = Ok (VStr method, kwargs)
    /\ config self !! "endpoint" = Some endpoint
    /\ execute net self auth_token tr = (Ok env, tr')
    /\ match net (VStr method) kwargs with
       | Raise e =>
           env = if is_Timeout e
                 then failure_envelope 408 "Request timed out" (VStr method) endpoint
                 else if is_ConnectionError e
                 then failure_envelope 503 ("Connection error: " +:+ exn_str e)
                        (VStr method) endpoint
                 else failure_envelope 500 (exn_str e) (VStr method) endpoint
       | Ok response =>
           let failed (e : exn) : gmap string value :=
             failure_envelope (status_code response)
               ("Error processing response: " +:+ exn_str e)
               (VStr method) (VStr (url response)) in
           let succeeded (data : value) : gmap string value :=
             {[ "success" := VBool (ok response);
                "status_code" := VInt (status_code response);
                "status_text" := VStr (reason response);
                "headers" := VDict (headers_dict (headers response));
                "data" := data;
                "url" := VStr (url response);
                "method" := VStr method;
                "size" := VInt (len (assembled response)) ]} in
           env !! "status_code" = Some (VInt (status_code response))
           /\ match content_length_of response with
              | Raise e => env = failed e
              | Ok _ =>
                  match raw_end response with
                  | IterRaise e => env = failed e
                  | _ =>
                      match (if str_contains "application/json" (content_type_of response)
                             then json_loads (assembled response)
                             else match decode_utf8 (assembled response) with
                                  | Ok s => Ok (VStr s)
                                  | Raise e => Raise e
                                  end) with
                      | Ok data => env = succeeded data
                      | Raise e =>
                          env = if is_decode_error e
                                then succeeded (VStr (bytearray_str (assembled response)))
                                else failed e
                      end
                  end
              end
       end.
Proof.
  intros Hi. pose proof (init_well_formed _ _ Hi) as Hwf.
  destruct (request_params_total self auth_token Hwf) as (method & kwargs & Hrp & Hm).
  destruct Hwf as (endpoint & method' & hdrs & payload & He & _).
  exists method, kwargs, endpoint.
  rewrite (execute_run net self auth_token tr _ _ _ _ Hrp Hm He).
  destruct (net (VStr method) kwargs) as [response|e].
  - rewrite (handle_response_writes self response (VStr method) _ Hm).
    eexists _, _. split; [exact Hrp|]. split; [exact He|]. split; [reflexivity|].
    cbv zeta. unfold handled, decoded, processing_failure, response_envelope.
    destruct (content_length_of response) as [n|e]; [|split; reflexivity].
    destruct (raw_end response) as [|e_str partial|e]; try (split; reflexivity);
      (destruct (if str_contains "application/json" (content_type_of response)
                 then json_loads (assembled response)
                 else match decode_utf8 (assembled response) with
                      | Ok s => Ok (VStr s)
                      | Raise e => Raise e
                      end) as [data|e];
       [split; reflexivity|]);
      destruct (is_decode_error e); split; reflexivity.
  - eexists _, _. repeat split; eauto.
Qed.

(** C4, as the code has it.  When the body iterator of a response raises
    an exception other than [IncompleteRead], [execute] returns the
    failure envelope whose status code is the status code of the response
    itself (200 for a response that started well), with the error
    [Error processing response: ] followed by the message of the
    exception and the URL of the response. *)
Theorem stream_error_envelope (net : transport) (raw : gmap string value)
    (self : APIHandler) (auth_token : option string) (tr : list event)
    (method : string) (kwargs : gmap string value) (response : Response)
    (n : Z) (e : exn) :
  __init__ raw = Ok self ->
  request_params self auth_token = Ok (VStr method, kwargs) ->
  net (VStr method) kwargs = Ok response ->
  content_length_of response = Ok n ->
  raw_end response = IterRaise e ->
  exists tr',
    execute net self auth_token tr
    = (Ok (failure_envelope (status_code response)
             ("Error processing response: " +:+ exn_str e)
             (VStr method) (VStr (url response))), tr').
Proof.
  intros Hi Hrp Hnet Hn He. pose proof (init_well_formed _ _ Hi) as Hwf.
  destruct (request_params_total self auth_token Hwf) as (method' & kwargs' & Hrp' & Hm).
  rewrite Hrp in Hrp'. inversion Hrp'; subst method' kwargs'.
  destruct Hwf as (endpoint & _ & _ & _ & Hep & _).
  rewrite (execute_run net self auth_token tr _ _ _ _ Hrp Hm Hep), Hnet.
  destruct (handle_response_stream_error self response
              (tr ++ [EvRequest (VStr method) kwargs]) (VStr method) n e Hm Hn He)
    as [tr' ->].
  eexists. reflexivity.
Qed.

(** C2, as the code has it.  For an execution whose status indicates
    success, whose content type contains application/json and whose
    assembled body [json.loads] rejects with a decode error, the envelope
    has success true, and its data is the [str()] of the byte buffer, the
    text [bytearray(b'...')], which is never the raw text of the body. *)
Theorem malformed_json_fallback (net : transport) (raw : gmap string value)
    (self : APIHandler) (auth_token : option string) (tr : list event)
    (method : string) (kwargs : gmap string value) (response : Response)
    (n : Z) (e : exn) :
  __init__ raw = Ok self ->
  request_params self auth_token = Ok (VStr method, kwargs) ->
  net (VStr method) kwargs = Ok response ->
  ok response = true ->
  str_contains "application/json" (content_type_of response) = true ->
  content_length_of response = Ok n ->
  completes response = true ->
  json_loads (assembled response) = Raise e ->
  is_decode_error e = true ->
  exists env tr',
    execute net self auth_token tr = (Ok env, tr')
    /\ env !! "success" = Some (VBool true)
    /\ env !! "data" = Some (VStr (bytearray_str (assembled response)))
    /\ env !! "size" = Some (VInt (len (assembled response)))
    /\ bytearray_str (assembled response) <> string_of_list_byte (assembled response).
Proof.
  intros Hi Hrp Hnet Hok Hct Hn Hend Hj He. pose proof (init_well_formed _ _ Hi) as Hwf.
  destruct (request_params_total self auth_token Hwf) as (method' & kwargs' & Hrp' & Hm).
  rewrite Hrp in Hrp'. inversion Hrp'; subst method' kwargs'.
  destruct Hwf as (endpoint & _ & _ & _ & Hep & _).
  rewrite (execute_run net self auth_token tr _ _ _ _ Hrp Hm Hep), Hnet.
  destruct (handle_response_decode_fallback self response
              (tr ++ [EvRequest (VStr method) kwargs]) (VStr method) n e
              Hm Hn Hend Hct Hj He) as [tr' ->].
  rewrite Hok. eexists _, _. split; [reflexivity|].
  repeat split; try reflexivity. apply bytearray_str_not_text.
Qed.

(** *** Request parameters *)

Lemma upper_method_payload raw payload :
  upper_method (<["payload" := payload]> raw) = upper_method raw.
Proof. unfold upper_method, dict_get. rewrite lookup_insert_ne by discriminate. reflexivity. Qed.

Lemma upper_method_no_payload raw :
  upper_method (delete "payload" raw) = upper_method raw.
Proof. unfold upper_method, dict_get. rewrite lookup_delete_ne by discriminate. reflexivity. Qed.

(** C9.  A GET handler built from a configuration whose payload is the
    empty mapping and one built from the same configuration without any
    payload make the same request: the keyword arguments are equal, and
    they hold neither query parameters nor a body. *)
Theorem empty_payload_same_request (raw : gmap string value) (with_empty without : APIHandler)
    (auth_token : option string) :
  __init__ (<["payload" := VDict ∅]> raw) = Ok with_empty ->
  __init__ (delete "payload" raw) = Ok without ->
  config with_empty !! "method" = Some (VStr "GET") ->
  exists kwargs,
    request_params with_empty auth_token = Ok (VStr "GET", kwargs)
    /\ request_params without auth_token = Ok (VStr "GET", kwargs)
    /\ kwargs !! "params" = None
    /\ kwargs !! "json" = None.
Proof.
  unfold __init__. intros H1 H2 Hget.
  destruct (_validate_config (<["payload" := VDict ∅]> raw)) as [c1|] eqn:Hv1; [|discriminate].
  destruct (_validate_config (delete "payload" raw)) as [c2|] eqn:Hv2; [|discriminate].
  inversion H1; subst with_empty; clear H1. inversion H2; subst without; clear H2.
  destruct (validate_inv _ _ Hv1) as (m1 & h1 & -> & _ & Hm1 & Hh1).
  assert (m1 = "GET"%string) as ->.
  { cbn [config] in Hget.
    destruct (validated_lookups (dict_get (<["payload" := VDict ∅]> raw) "endpoint" VNone)
                (VStr m1) (VDict h1)
                (dict_get (<["payload" := VDict ∅]> raw) "payload" VNone)) as (_ & Lm & _).
    rewrite Lm in Hget. congruence. }
  clear Hget.
  destruct (validate_inv _ _ Hv2) as (m2 & h2 & -> & _ & Hm2 & Hh2).
  rewrite upper_method_payload in Hm1. rewrite upper_method_no_payload in Hm2.
  rewrite Hm1 in Hm2. inversion Hm2; subst m2; clear Hm2.
  unfold dict_get in Hh1, Hh2 |- *.
  rewrite lookup_insert_ne in Hh1 by discriminate.
  rewrite lookup_delete_ne in Hh2 by discriminate.
  rewrite Hh1 in Hh2. inversion Hh2; subst h2; clear Hh2.
  rewrite (lookup_insert_ne _ "payload" "endpoint") by discriminate.
  rewrite (lookup_delete_ne _ "payload" "endpoint") by discriminate.
  rewrite lookup_insert_eq, lookup_delete_eq.
  set (endpoint := match raw !! "endpoint" with Some v => v | None => VNone end).
  destruct (validated_lookups endpoint (VStr "GET") (VDict h1) (VDict ∅))
    as (Le1 & Lm1 & Lh1 & Lp1).
  destruct (validated_lookups endpoint (VStr "GET") (VDict h1) VNone)
    as (Le2 & Lm2 & Lh2 & Lp2).
  unfold request_params, getitem, dict_get. cbn [config].
  rewrite Le1, Lm1, Lh1, Lp1, Le2, Lm2, Lh2, Lp2. cbn [copy].
  destruct auth_token as [tok|]; [destruct (truthy (VStr tok))|]; simpl;
    eexists; (split; [reflexivity|]); (split; [reflexivity|]); split; reflexivity.
Qed.

(** *** The entry point *)

(** The envelope of [execute] has one of two shapes. *)
Lemma execute_shape net self auth_token tr :
  well_formed self ->
  exists env tr',
    execute net self auth_token tr = (Ok env, tr')
    /\ ((exists code error method url,
            env = {[ "success" := VBool false;
                     "status_code" := VInt code;
                     "error" := VStr error;
                     "method" := method;
                     "url" := url ]})
        \/ (exists success code text hdrs data url method size,
               env = {[ "success" := VBool success;
                        "status_code" := VInt code;
                        "status_text" := VStr text;
                        "headers" := VDict hdrs;
                        "data" := data;
                        "url" := VStr url;
                        "method" := method;
                        "size" := VInt size ]})).
Proof.
  intros Hwf.
  destruct (request_params_total self auth_token Hwf) as (method & kwargs & Hrp & Hm).
  destruct Hwf as (endpoint & _ & _ & _ & He & _).
  rewrite (execute_run net self auth_token tr _ _ _ _ Hrp Hm He).
  destruct (net (VStr method) kwargs) as [response|e].
  - rewrite (handle_response_writes self response (VStr method) _ Hm).
    eexists _, _. split; [reflexivity|].
    unfold handled, processing_failure, response_envelope, failure_envelope.
    destruct (content_length_of response) as [n|e];
      [|left; eexists _, _, _, _; reflexivity].
    destruct (raw_end response) as [|e_str partial|e];
      try (left; eexists _, _, _, _; reflexivity);
      (destruct (decoded response) as [data|e];
       [right; eexists _, _, _, _, _, _, _, _; reflexivity|]);
      (destruct (is_decode_error e);
       [right; eexists _, _, _, _, _, _, _, _; reflexivity
       |left; eexists _, _, _, _; reflexivity]).
  - eexists _, _. split; [reflexivity|]. left. unfold failure_envelope.
    destruct (is_Timeout e); [|destruct (is_ConnectionError e)];
      eexists _, _, _, _; reflexivity.
Qed.

(** C10.  For every raw configuration, valid or not, [handle_api_request]
    returns an envelope and never raises.  When the configuration fails
    validation with [e], the envelope has success false, status code 500,
    the message of [e] as its error, and the method (GET when absent) and
    the URL (the empty string when absent) of the raw configuration; no
    effect has taken place.  When the configuration passes validation,
    the result is the envelope, and the effects, of [execute] on the
    handler built from it.  In both cases the envelope has one of the two
    shapes: the failure shape (success false, a status code, an error, the
    method and the URL) or the response shape (success, status code,
    status text, headers, data, URL, method and size). *)
Theorem handle_api_request_total (net : transport) (raw : gmap string value)
    (auth_token : option string) (tr : list event) :
  exists env tr',
    handle_api_request net raw auth_token tr = (Ok env, tr')
    /\ (forall e,
         _validate_config raw = Raise e ->
         env = {[ "success" := VBool false;
                  "status_code" := VInt 500;
                  "error" := VStr (exn_str e);
                  "method" := dict_get raw "method" (VStr "GET");
                  "url" := dict_get raw "endpoint" (VStr "") ]}
         /\ tr' = tr)
    /\ (forall self,
         __init__ raw = Ok self ->
         execute net self auth_token tr = (Ok env, tr'))
    /\ ((exists code error method url,
            env = {[ "success" := VBool false;
                     "status_code" := VInt code;
                     "error" := VStr error;
                     "method" := method;
                     "url" := url ]})
        \/ (exists success code text hdrs data url method size,
               env = {[ "success" := VBool success;
                        "status_code" := VInt code;
                        "status_text" := VStr text;
                        "headers" := VDict hdrs;
                        "data" := data;
                        "url" := VStr url;
                        "method" := method;
                        "size" := VInt size ]})).
Proof.
  destruct (_validate_config raw) as [cfg|e] eqn:Hv.
  - assert (__init__ raw = Ok {| config := cfg; session := _create_session |}) as Hi
      by (unfold __init__; rewrite Hv; reflexivity).
    destruct (execute_shape net _ auth_token tr (init_well_formed _ _ Hi))
      as (env & tr' & Hex & Hshape).
    exists env, tr'. split; [|split; [discriminate|split]].
    + unfold handle_api_request, try_except, mbind, M_bind, lift.
      rewrite Hi, Hex. reflexivity.
    + intros self Hself. rewrite Hi in Hself. inversion Hself; subst self. exact Hex.
    + exact Hshape.
  - eexists _, _. split; [apply (rejected_no_io _ _ _ _ _ Hv)|].
    split; [|split].
    + intros e' He'. inversion He'; subst. split; reflexivity.
    + intros self Hself. unfold __init__ in Hself. rewrite Hv in Hself. discriminate.
    + left. eexists _, _, _, _. reflexivity.
Qed.

End executor.

(** ** The retry policy of the session *)

Section retry_policy.

Import api_handler urllib3.

Lemma supported_retryable method :
  method ∈ supported_methods -> is_method_retryable retries method = true.
Proof.
  intros Hm. unfold is_method_retryable. apply bool_decide_eq_true_2.
  unfold supported_methods in Hm. cbn [allowed_methods retries].
  rewrite !elem_of_cons in *. tauto.
Qed.

Lemma attempts_cons_attempt a events : attempts (Attempt a :: events) = S (attempts events).
Proof. reflexivity. Qed.

Lemma attempts_sleep errors events :
  attempts (sleep retries errors ++ events) = attempts events.
Proof. unfold sleep. destruct (Qle_bool _ 0); reflexivity. Qed.

(** One transient failure costs one retry, after the backoff. *)
Lemma urlopen_transient method a script remaining errors :
  is_method_retryable retries method = true ->
  transient retries a = true ->
  urlopen retries method (a :: script) remaining errors
  = if remaining - 1 <? 0 then ([Attempt a], MaxRetryError)
    else let '(events, e) := urlopen retries method script (remaining - 1) (S errors) in
         (Attempt a :: sleep retries (S errors) ++ events, e).
Proof.
  intros Hm Ha. cbn [urlopen].
  destruct a as [| |status]; cbn [transient] in Ha; unfold is_retry;
    rewrite ?Hm, ?Ha; reflexivity.
Qed.

Lemma urlopen_final method status script remaining errors :
  transient retries (Responded status) = false ->
  urlopen retries method (Responded status :: script) remaining errors
  = ([Attempt (Responded status)], Returned status).
Proof.
  intros Hs. cbn [urlopen transient] in *. unfold is_retry.
  rewrite Hs, andb_false_r. reflexivity.
Qed.

(** While retries are left, transient failures are retried until an
    outcome that is not transient. *)
Lemma urlopen_recovers method failures status rest remaining errors :
  is_method_retryable retries method = true ->
  Forall (fun a => transient retries a = true) failures ->
  Z.of_nat (length failures) <= remaining ->
  transient retries (Responded status) = false ->
  exists events,
    urlopen retries method (failures ++ Responded status :: rest) remaining errors
    = (events, Returned status)
    /\ attempts events = S (length failures).
Proof.
  intros Hm Hf. revert remaining errors.
  induction Hf as [|a failures Ha Hf IH]; intros remaining errors Hlen Hs.
  - eexists. rewrite app_nil_l, (urlopen_final _ _ _ _ _ Hs). split; reflexivity.
  - rewrite <- app_comm_cons, (urlopen_transient _ _ _ _ _ Hm Ha).
    simpl length in Hlen.
    destruct (remaining - 1 <? 0) eqn:Hr; [apply Z.ltb_lt in Hr; lia|].
    destruct (IH (remaining - 1) (S errors)) as (events & -> & Hn); [lia | assumption |].
    eexists. split; [reflexivity|].
    rewrite attempts_cons_attempt, attempts_sleep, Hn. reflexivity.
Qed.

(** C7, as the library runs the policy of [_create_session].  For each
    of the five supported methods and every http or https URL, a request
    whose attempts meet network-level failures or the statuses 500, 502,
    503 and 504 is retried up to 3 times, that is up to 4 attempts in
    all: an outcome that is not such a failure, at any of the 4 attempts,
    is returned; 4 failures in a row end in [MaxRetryError], and then the
    first retry is immediate and the second and third wait 1 and 2
    time-units (backoff factor 0.5, doubled from the second retry on). *)
Theorem session_retry_policy (url method : string) (failures : list attempt) :
  is_Some (get_adapter _create_session url) ->
  method ∈ supported_methods ->
  Forall (fun a => transient retries a = true) failures ->
  (forall status rest,
      (length failures <= 3)%nat ->
      transient retries (Responded status) = false ->
      exists events,
        send _create_session url method (failures ++ Responded status :: rest)
        = Some (events, Returned status)
        /\ attempts events = S (length failures))
  /\ (forall rest,
        length failures = 4%nat ->
        exists events,
          send _create_session url method (failures ++ rest) = Some (events, MaxRetryError)
          /\ attempts events = 4%nat
          /\ sleeps events = [1%Q; 2%Q]).
Proof.
  intros Hurl Hmethod Hf.
  assert (get_adapter _create_session url = Some retries) as Hadapter.
  { destruct Hurl as [policy Hp]. rewrite Hp. f_equal.
    unfold get_adapter, _create_session in Hp. simpl in Hp.
    repeat (match type of Hp with context [if ?c then _ else _] => destruct c end);
      simpl in Hp; congruence. }
  pose proof (supported_retryable _ Hmethod) as Hm.
  unfold send. rewrite Hadapter. split.
  - intros status rest Hlen Hs.
    destruct (urlopen_recovers method failures status rest (total retries) 0 Hm Hf)
      as (events & -> & Hn); [simpl; lia | assumption |].
    eauto.
  - intros rest Hlen.
    destruct failures as [|a1 [|a2 [|a3 [|a4 [|]]]]]; try discriminate.
    inversion Hf as [|? ? H1 Hf1]; subst. inversion Hf1 as [|? ? H2 Hf2]; subst.
    inversion Hf2 as [|? ? H3 Hf3]; subst. inversion Hf3 as [|? ? H4 _]; subst.
    simpl app.
    rewrite (urlopen_transient _ _ _ _ _ Hm H1). simpl (_ <? _).  cbv iota.
    rewrite (urlopen_transient _ _ _ _ _ Hm H2). simpl (_ <? _).  cbv iota.
    rewrite (urlopen_transient _ _ _ _ _ Hm H3). simpl (_ <? _).  cbv iota.
    rewrite (urlopen_transient _ _ _ _ _ Hm H4). simpl (_ <? _).  cbv iota.
    eexists. split; [reflexivity|]. split; reflexivity.
Qed.

End retry_policy.

(** ** The poll orchestrator *)

Section poll.

Import app.
Context `{PyRuntime}.


(** What one iteration yields: the status read from a JSON object body,
    or an error notification. *)
Lemma poll_once_cases API_BASE_URL api_info poll_id io :
  exists n done dt,
    poll_once API_BASE_URL api_info poll_id io = (n, done, dt)
    /\ (dt = 0 \/ dt = http_elapsed io)
    /\ (done = true ->
        exists verb url response body data,
          http_result io verb url = Ok response
          /\ json response = Ok (VDict body)
          /\ truthy (dict_get body "expired" (VBool false)) = true
          /\ n = PollingStatus (dict_get body "expired" (VBool false)) data).
Proof.
  unfold poll_once, execute_api_call.
  destruct (subscript api_info "endpoint") as [[| | | |endpoint| | |]|e];
    try (eexists _, _, _; split; [reflexivity|]; split; [left; reflexivity | discriminate]).
  destruct (split_once endpoint) as [method [path|]];
    [|eexists _, _, _; split; [reflexivity|]; split; [left; reflexivity | discriminate]].
  set (url := default "None"%string API_BASE_URL +:+ path).
  set (verb := if String.eqb (str_upper method) "POST" then "POST"%string else "GET"%string).
  assert ((if String.eqb (str_upper method) "POST"
           then http_result io "POST" url else http_result io "GET" url)
          = http_result io verb url) as ->
    by (unfold verb; destruct (String.eqb (str_upper method) "POST"); reflexivity).
  destruct (http_result io verb url) as [response|e] eqn:Hr.
  - destruct ((400 <=? status_code response) && (status_code response <? 600)).
    { cbn [is_RequestException exn_cls].
      eexists _, _, _; split; [reflexivity|]; split; [right; reflexivity | discriminate]. }
    destruct (json response) as [body|e] eqn:Hj.
    + destruct body as [| | | | | | |body];
        try (eexists _, _, _; split; [reflexivity|]; split; [right; reflexivity | discriminate]).
      eexists _, _, _. split; [reflexivity|]. split; [right; reflexivity|].
      intros Hdone. exists verb, url, response, body. eexists. repeat split; eauto.
    + destruct (is_RequestException e);
        eexists _, _, _; (split; [reflexivity|]); (split; [right; reflexivity | discriminate]).
  - destruct (is_RequestException e);
      eexists _, _, _; (split; [reflexivity|]); (split; [right; reflexivity | discriminate]).
Qed.


(** C5.  With a budget of 10 time-units and an interval of 5 (in any
    clock resolution [u] ticks per time-unit), against an endpoint that
    never reports completion, and with each iteration's request and
    overhead taking negligible time (less than an interval), the poll
    runs exactly two iterations, at elapsed time 0 and at elapsed time 5
    plus at most what the first request and overhead took (so before 10),
    and then raises [TimeoutError]: when the loop condition is evaluated
    for the third time the budget is used up, and no third iteration
    starts. *)
Theorem poll_times_out_after_two_ticks (u : Z) (fuel : nat) (world : nat -> tick_io)
    (API_BASE_URL : option string) (api_info poll_id : value) :
  0 < u ->
  (2 <= fuel)%nat ->
  (forall i, 0 <= http_elapsed (world i) /\ 0 <= overhead (world i)
             /\ http_elapsed (world i) + overhead (world i) < 5 * u) ->
  (forall i verb url response body,
      http_result (world i) verb url = Ok response ->
      json response = Ok (VDict body) ->
      truthy (dict_get body "expired" (VBool false)) = false) ->
  exists events n1 n2 t2,
    poll_status fuel world API_BASE_URL api_info poll_id (10 * u) (5 * u)
    = Some (events, Raised (Exn BuiltinTimeoutError "Polling timed out"))
    /\ events = [Tick 0; Yielded n1; Slept (5 * u); Tick t2; Yielded n2; Slept (5 * u)]
    /\ ticks events = [0; t2]
    /\ 5 * u <= t2 <= 5 * u + http_elapsed (world 0%nat) + overhead (world 0%nat)
    /\ t2 < 10 * u.
Proof.
  intros Hu Hfuel Htime Hnever.
  destruct fuel as [|[|fuel]]; [lia | lia |].
  unfold poll_status. cbn [poll_loop].
  destruct (0 <? 10 * u) eqn:H0; [|apply Z.ltb_ge in H0; lia].
  destruct (poll_once_cases API_BASE_URL api_info poll_id (world 0%nat))
    as (n1 & done1 & dt1 & -> & Hdt1 & Hdone1).
  destruct done1.
  { destruct Hdone1 as (verb & url & response & body & data & Hr & Hj & Ht & _);
      [reflexivity|].
    rewrite (Hnever _ _ _ _ _ Hr Hj) in Ht. discriminate. }
  destruct (5 * u <? 0) eqn:Hi; [apply Z.ltb_lt in Hi; lia|].
  destruct (Htime 0%nat) as (He0 & Hs0 & Hn0).
  set (t2 := 0 + dt1 + 5 * u + overhead (world 0%nat)).
  assert (5 * u <= t2 <= 5 * u + http_elapsed (world 0%nat) + overhead (world 0%nat)
          /\ t2 < 10 * u) as Ht2 by (unfold t2; destruct Hdt1; subst; lia).
  destruct (t2 <? 10 * u) eqn:H1; [|apply Z.ltb_ge in H1; lia].
  destruct (poll_once_cases API_BASE_URL api_info poll_id (world 1%nat))
    as (n2 & done2 & dt2 & -> & Hdt2 & Hdone2).
  destruct done2.
  { destruct Hdone2 as (verb & url & response & body & data & Hr & Hj & Ht & _);
      [reflexivity|].
    rewrite (Hnever _ _ _ _ _ Hr Hj) in Ht. discriminate. }
  destruct (Htime 1%nat) as (He1 & Hs1 & Hn1).
  assert ((t2 + dt2 + 5 * u + overhead (world 1%nat) <? 10 * u) = false) as H2
    by (apply Z.ltb_ge; destruct Hdt2; subst; lia).
  destruct fuel; cbn [poll_loop]; rewrite H2; eexists _, n1, n2, t2;
    (split; [reflexivity|]); (split; [reflexivity|]); (split; [reflexivity|]); exact Ht2.
Qed.

End poll.

(** ** The embedding at work on concrete inputs *)

Section instances.

Import api_handler reference fixtures.

(** The executor on a response whose stream breaks. *)
Lemma execute_never_raises_witness :
  __init__ test_config = Ok test_handler
  /\ exists tr',
       execute (answering broken) test_handler None []
       = (Ok (failure_envelope 200 "Error processing response: Connection broken"
                (VStr "GET") (VStr "http://localhost:8000/api/test")), tr').
Proof.
  assert (__init__ test_config = Ok test_handler) as Hi by reflexivity.
  split; [exact Hi|].
  destruct (execute_never_raises (answering broken) test_config test_handler None [] Hi)
    as (method & kwargs & endpoint & env & tr' & Hrp & _ & Hex & Hshape).
  exists tr'. rewrite Hex. f_equal. f_equal.
  vm_compute in Hrp. inversion Hrp; subst method kwargs.
  exact (proj2 Hshape).
Defined.

(** C1 as stated fails: a connection error raised while the body is
    read is an exception raised during the pipeline, and the envelope
    holds neither 503 nor 500 but the status of the response, 200. *)
Lemma connection_error_in_stream_not_503 :
  __init__ test_config = Ok test_handler
  /\ is_ConnectionError read_timed_out = true
  /\ raw_end stalled = IterRaise read_timed_out
  /\ exists tr',
       execute (answering stalled) test_handler None []
       = (Ok (failure_envelope 200 "Error processing response: Read timed out."
                (VStr "GET") (VStr "http://localhost:8000/api/test")), tr')
       /\ (failure_envelope 200 "Error processing response: Read timed out."
             (VStr "GET") (VStr "http://localhost:8000/api/test") !! "status_code")
          <> Some (VInt 503).
Proof.
  repeat split; try reflexivity.
  eexists. split; [vm_compute; reflexivity|]. vm_compute. discriminate.
Qed.

(** The scenario of the specification: a GET answered with status 200,
    content type application/json and the body [{"ok":true}]. *)
Example json_body_decoded :
  exists env tr',
    handle_api_request
      (answering (json_response [b ("{" +:+ quoted "ok" +:+ ":true}")] IterDone))
      test_config None []
    = (Ok env, tr')
    /\ env !! "success" = Some (VBool true)
    /\ env !! "status_code" = Some (VInt 200)
    /\ env !! "data" = Some (VDict {[ "ok" := VBool true ]})
    /\ env !! "method" = Some (VStr "GET")
    /\ env !! "size" = Some (VInt 11).
Proof. eexists _, _. split; [vm_compute; reflexivity|]. repeat split; reflexivity. Qed.

(** The fallback on the malformed body of [malformed]. *)
Lemma malformed_json_fallback_witness :
  __init__ test_config = Ok test_handler
  /\ ok malformed = true
  /\ json_loads (assembled malformed) = Raise (Exn JSONDecodeError "Expecting value")
  /\ exists env tr',
       execute (answering malformed) test_handler None [] = (Ok env, tr')
       /\ env !! "success" = Some (VBool true)
       /\ env !! "data" = Some (VStr "bytearray(b'{bad')").
Proof.
  assert (__init__ test_config = Ok test_handler) as Hi by reflexivity.
  assert (request_params test_handler None = Ok (VStr "GET", test_kwargs)) as Hrp
    by reflexivity.
  assert (json_loads (assembled malformed) = Raise (Exn JSONDecodeError "Expecting value"))
    as Hj by reflexivity.
  split; [exact Hi|]. split; [reflexivity|]. split; [exact Hj|].
  destruct (malformed_json_fallback (answering malformed) test_config test_handler None []
              "GET" test_kwargs malformed 0 (Exn JSONDecodeError "Expecting value")
              Hi Hrp eq_refl eq_refl eq_refl eq_refl eq_refl Hj eq_refl)
    as (env & tr' & Hex & Hs & Hd & _).
  exists env, tr'. split; [exact Hex|]. split; [exact Hs | exact Hd].
Defined.

(** C2 as stated fails: the body [{bad] arrives with status 200 and
    content type application/json and is not JSON; the envelope is a
    success, but its data is the text [bytearray(b'{bad')], not the raw
    text [{bad]. *)
Lemma malformed_json_data_is_not_raw_text :
  ok malformed = true
  /\ str_contains "application/json" (content_type_of malformed) = true
  /\ string_of_list_byte (assembled malformed) = "{bad"%string
  /\ exn_cls_of (json_loads (assembled malformed)) = Some JSONDecodeError
  /\ exists env tr',
       execute (answering malformed) test_handler None [] = (Ok env, tr')
       /\ env !! "success" = Some (VBool true)
       /\ env !! "data" = Some (VStr "bytearray(b'{bad')")
       /\ (env !! "data") <> Some (VStr "{bad").
Proof.
  repeat split; try reflexivity.
  eexists _, _. split; [vm_compute; reflexivity|].
  repeat split; try reflexivity. vm_compute. discriminate.
Qed.

(** A configuration with an ftp endpoint is rejected without effect. *)
Lemma invalid_config_rejected_witness :
  urlparse (dict_get ftp_config "endpoint" VNone) = Ok ("ftp", "localhost")%string
  /\ _validate_config ftp_config
     = Raise (Exn ValueError "Invalid endpoint URL: URL must use http or https protocol")
  /\ forall net auth_token tr,
       exists env, handle_api_request net ftp_config auth_token tr = (Ok env, tr).
Proof.
  assert (urlparse (dict_get ftp_config "endpoint" VNone) = Ok ("ftp", "localhost")%string)
    as Hu by reflexivity.
  assert ("ftp"%string ∉ ["http"; "https"]%string) as Hs
    by (refine (bool_decide_unpack _ _); vm_compute; exact I).
  split; [exact Hu|].
  destruct (invalid_config_rejected ftp_config
              (or_intror (or_introl (ex_intro _ "ftp"%string
                                       (ex_intro _ "localhost"%string (conj Hu Hs))))))
    as (e & Hv & _ & _ & Hio).
  split; [|exact Hio].
  rewrite Hv. vm_compute in Hv. inversion Hv. reflexivity.
Defined.

(** The method is matched after upper-casing: [get] passes validation
    as GET and the request is sent. *)
Lemma lowercase_method_accepted :
  lowercase_config !! "method" = Some (VStr "get")
  /\ ("get"%string ∉ supported_methods)
  /\ _validate_config lowercase_config
     = Ok {[ "endpoint" := VStr "http://localhost:8000/api/test";
             "method" := VStr "GET";
             "headers" := VDict ∅;
             "payload" := VNone ]}
  /\ exists env kwargs tr,
       handle_api_request (answering malformed) lowercase_config None []
       = (Ok env, EvRequest (VStr "GET") kwargs :: tr).
Proof.
  split; [reflexivity|]. split; [refine (bool_decide_unpack _ _); vm_compute; exact I|].
  split; [reflexivity|]. eexists _, _, _. reflexivity.
Qed.

(** C3, the code at the failing input.  The method of this
    configuration is [null], which is none of GET, POST, PUT, PATCH and
    DELETE.  The validator does not reject it with a [ValueError], as it
    rejects headers of the wrong type after an [isinstance] test: it calls
    [upper] on the value and the [AttributeError] of that call leaves the
    validator.  No transport call is made, and the entry point returns
    without effect. *)
Lemma null_method_attribute_error :
  type_fixtures.null_method_config !! "method" = Some VNone
  /\ _validate_config type_fixtures.null_method_config
     = Raise (Exn AttributeError "'NoneType' object has no attribute 'upper'")
  /\ _validate_config type_fixtures.list_headers_config
     = Raise (Exn ValueError "Headers must be a dictionary")
  /\ exists env,
       handle_api_request (answering malformed) type_fixtures.null_method_config None []
       = (Ok env, []).
Proof. repeat split; try reflexivity. eexists. reflexivity. Qed.

(** The executor on the broken stream of [broken]. *)
Lemma stream_error_envelope_witness :
  __init__ test_config = Ok test_handler
  /\ raw_end broken = IterRaise connection_broken
  /\ exists tr',
       execute (answering broken) test_handler None []
       = (Ok (failure_envelope 200 "Error processing response: Connection broken"
                (VStr "GET") (VStr "http://localhost:8000/api/test")), tr').
Proof.
  assert (__init__ test_config = Ok test_handler) as Hi by reflexivity.
  assert (request_params test_handler None = Ok (VStr "GET", test_kwargs)) as Hrp
    by reflexivity.
  split; [exact Hi|]. split; [reflexivity|].
  exact (stream_error_envelope (answering broken) test_config test_handler None []
           "GET" test_kwargs broken 0 connection_broken Hi Hrp eq_refl eq_refl eq_refl).
Defined.

(** C4 as stated fails: the stream of a 200 response breaks with an
    exception that is not a partial read, and the failure envelope holds
    the status code 200, not 500. *)
Lemma stream_failure_status_is_not_500 :
  raw_end broken = IterRaise connection_broken
  /\ exists env tr',
       handle_api_request (answering broken) test_config None [] = (Ok env, tr')
       /\ env !! "success" = Some (VBool false)
       /\ env !! "status_code" = Some (VInt 200)
       /\ (env !! "status_code") <> Some (VInt 500).
Proof.
  split; [reflexivity|]. eexists _, _. split; [vm_compute; reflexivity|].
  repeat split; try reflexivity. vm_compute. discriminate.
Qed.

(** Four 503 responses in a row to a GET. *)
Lemma session_retry_policy_witness :
  exists events,
    urllib3.send _create_session "http://localhost:8000/api/test" "GET" always_503
    = Some (events, urllib3.MaxRetryError)
    /\ urllib3.attempts events = 4%nat
    /\ urllib3.sleeps events = [1%Q; 2%Q].
Proof.
  assert (is_Some (urllib3.get_adapter _create_session "http://localhost:8000/api/test"))
    as Hurl by (eexists; reflexivity).
  assert ("GET"%string ∈ supported_methods) as Hm
    by (refine (bool_decide_unpack _ _); vm_compute; exact I).
  assert (Forall (fun a => urllib3.transient retries a = true) always_503) as Hf
    by (repeat constructor).
  destruct (session_retry_policy "http://localhost:8000/api/test" "GET" always_503
              Hurl Hm Hf) as [_ Hexhausted].
  destruct (Hexhausted [] eq_refl) as (events & Hs & Hn & Hd).
  exists events. rewrite app_nil_r in Hs. repeat split; assumption.
Defined.

(** C7 as stated fails: against a server that keeps answering 503 the
    session makes 4 attempts, not 3, and the waits between them are 1 and
    2 time-units after an immediate first retry, not 0.5, 1 and 2. *)
Lemma four_attempts_not_three :
  exists events,
    urllib3.send _create_session "http://localhost:8000/api/test" "GET" always_503
    = Some (events, urllib3.MaxRetryError)
    /\ events = [urllib3.Attempt (urllib3.Responded 503);
                 urllib3.Attempt (urllib3.Responded 503);
                 urllib3.Sleep 1;
                 urllib3.Attempt (urllib3.Responded 503);
                 urllib3.Sleep 2;
                 urllib3.Attempt (urllib3.Responded 503)]
    /\ ~ (urllib3.attempts events <= 3)%nat
    /\ urllib3.sleeps events <> [1 # 2; 1; 2]%Q.
Proof.
  eexists. split; [reflexivity|]. split; [reflexivity|].
  split; [vm_compute; lia | discriminate].
Qed.

(** The example configuration of the module, validated. *)
Lemma extra_fields_dropped_witness :
  _validate_config main_config = Ok main_validated
  /\ dom main_validated = {[ "endpoint"; "method"; "headers"; "payload" ]}%string
  /\ main_validated !! "payload" = Some VNone.
Proof.
  assert (_validate_config main_config = Ok main_validated) as Hv by reflexivity.
  split; [exact Hv|].
  destruct (extra_fields_dropped main_config main_validated Hv) as (Hdom & Hp & _).
  split; [exact Hdom | exact Hp].
Defined.

(** C8 as stated fails: the example configuration passes validation
    with the extra fields [name] and [description], and neither reaches
    the payload, which is [None]. *)
Lemma extra_fields_not_in_payload :
  main_config !! "name" = Some (VStr "Get Countries")
  /\ _validate_config main_config = Ok main_validated
  /\ main_validated !! "payload" = Some VNone
  /\ main_validated !! "name" = None.
Proof. repeat split; reflexivity. Qed.

(** A GET with the payload [{}] and the same GET without a payload. *)
Lemma empty_payload_same_request_witness :
  __init__ (<["payload" := VDict ∅]> test_config) = Ok empty_payload_handler
  /\ __init__ (delete "payload" test_config) = Ok test_handler
  /\ request_params empty_payload_handler None = Ok (VStr "GET", test_kwargs)
  /\ request_params test_handler None = Ok (VStr "GET", test_kwargs).
Proof.
  assert (__init__ (<["payload" := VDict ∅]> test_config) = Ok empty_payload_handler)
    as H1 by reflexivity.
  assert (__init__ (delete "payload" test_config) = Ok test_handler) as H2 by reflexivity.
  split; [exact H1|]. split; [exact H2|].
  destruct (empty_payload_same_request test_config empty_payload_handler test_handler
              None H1 H2 eq_refl) as (kwargs & Ha & Hb & _).
  assert (request_params empty_payload_handler None = Ok (VStr "GET", test_kwargs))
    as Hrp by reflexivity.
  assert (kwargs = test_kwargs) as -> by congruence.
  split; assumption.
Defined.

(** A poll against an endpoint that never expires. *)
Lemma poll_times_out_after_two_ticks_witness :
  exists events,
    app.poll_status 5 (status_world false) None status_api (VInt 7) 10 5
    = Some (events, app.Raised (Exn BuiltinTimeoutError "Polling timed out"))
    /\ app.ticks events = [0; 5].
Proof.
  assert (forall i, 0 <= app.http_elapsed (status_world false i)
                    /\ 0 <= app.overhead (status_world false i)
                    /\ app.http_elapsed (status_world false i)
                       + app.overhead (status_world false i) < 5 * 1) as Htime
    by (intros i; simpl; lia).
  assert (forall i verb url response body,
             app.http_result (status_world false i) verb url = Ok response ->
             app.json response = Ok (VDict body) ->
             truthy (dict_get body "expired" (VBool false)) = false) as Hnever.
  { intros i verb url response body Hr Hj. simpl in Hr. inversion Hr; subst response.
    simpl in Hj. inversion Hj; subst body. reflexivity. }
  destruct (poll_times_out_after_two_ticks 1 5 (status_world false) None status_api
              (VInt 7) eq_refl (le_S _ _ (le_S _ _ (le_S _ _ (le_n 2)))) Htime Hnever)
    as (events & n1 & n2 & t2 & Hrun & Hev & Hticks & _).
  exists events. split; [exact Hrun|].
  rewrite Hev in Hrun. vm_compute in Hrun. inversion Hrun. subst t2. rewrite Hev. reflexivity.
Defined.


End instances.
